(** * The live telemetry monitoring pipeline of [node_manager.py]

    A shallow embedding of the monitoring part of [NodeManager]: the two
    bounded ingestion queues, the monitor table, the set of subscribed
    outputs, the Socket.IO event handlers, the consumer loop
    [_monitor_update_frame], the renderer
    [_process_and_plot_data_main_thread], the periodic queue-health check and
    the monitor life cycle ([_subscribe_output], [_unsubscribe_output],
    [_close_monitor], [_clear_queue_for_monitor]).

    Conventions of the embedding.
    - A Python [dict] whose iteration order is observable is an association
      list in insertion order; the [set] of subscribed outputs is a [gset].
    - [queue.Queue] is the list of its items, oldest first.  [put] on a full
      bounded queue waits for a free slot: a handler that reaches such a
      [put] ends in the outcome [Blocked].
    - Handlers run one after the other, so a [with self.monitor_lock] block
      that is entered and left within a handler is transparent.  The lock
      shows when a handler comes to wait inside such a block: [data_update]
      waiting in its [put] keeps the lock, which the field [monitor_lock]
      records, and the consumer [_monitor_update_frame] and the renderer,
      which take the lock first thing, then wait in turn.
    - Clock readings ([time.time()]) and the minimum update intervals are
      rationals; a handler receives the reading [now] as an argument.
    - [sio.emit] appends to the log [wire]; DearPyGui is the set [dpg_items]
      of tags that currently exist.
    - [DPGPlotter] lives in [dpg_plotting], outside the modelled file; only
      the success flag of its plot methods is used, through the section
      variable [plotter_ok]. *)

From Stdlib Require Import QArith.
From stdpp Require Import base list strings gmap pretty.

Close Scope Q_scope.
Open Scope string_scope.
Open Scope nat_scope.
Open Scope list_scope.

(** ** Association lists in insertion order (Python [dict]) *)

Module Dict.
Section Dict.
Context {K V : Type} `{EqDecision K}.

Fixpoint get (k : K) (d : list (K * V)) : option V :=
  match d with
  | [] => None
  | (k', v) :: d' => if decide (k' = k) then Some v else get k d'
  end.

(** [d[k] = v]: an existing key keeps its position. *)
Fixpoint set (k : K) (v : V) (d : list (K * V)) : list (K * V) :=
  match d with
  | [] => [(k, v)]
  | (k', v') :: d' =>
      if decide (k' = k) then (k, v) :: d' else (k', v') :: set k v d'
  end.

(** [del d[k]]. *)
Definition del (k : K) (d : list (K * V)) : list (K * V) :=
  filter (λ p, p.1 ≠ k) d.

(** In-place mutation of the value stored under [k], when there is one. *)
Definition alter (f : V → V) (k : K) (d : list (K * V)) : list (K * V) :=
  (λ p, if decide (p.1 = k) then (p.1, f p.2) else p) <$> d.

Definition keys (d : list (K * V)) : list K := d.*1.
Definition values (d : list (K * V)) : list V := d.*2.
End Dict.
End Dict.

(** ** [queue.Queue] *)

Module Queue.
Section Queue.
Context {A : Type}.

Definition qsize (q : list A) : nat := length q.

Definition empty (q : list A) : bool :=
  match q with [] => true | _ => false end.

(** [maxsize = 0] is the unbounded queue. *)
Definition full (maxsize : nat) (q : list A) : bool :=
  bool_decide (0 < maxsize ∧ maxsize ≤ length q).

(** [None] stands for the [Empty] exception. *)
Definition get_nowait (q : list A) : option (A * list A) :=
  match q with
  | [] => None
  | x :: q' => Some (x, q')
  end.

(** [None]: the queue is full and the caller waits. *)
Definition put (maxsize : nat) (q : list A) (x : A) : option (list A) :=
  if full maxsize q then None else Some (q ++ [x]).
End Queue.
End Queue.

(** ** Data model *)

(** JSON numbers and (nested) arrays, as delivered in a payload. *)
#[local] Unset Elimination Schemes.
Inductive pyval : Type :=
| PyNum (x : Q)
| PyList (xs : list pyval).
#[local] Set Elimination Schemes.

(** The [data] field of a [data_update] event: a dict with optional [data]
    and [shape] entries, or any other value. *)
Inductive raw_data : Type :=
| RawDict (data : option pyval) (shape : option (list N))
| RawOther.

Inductive item_type : Type := type_data_update | type_status_update.

#[global] Instance item_type_eq_dec : EqDecision item_type.
Proof. solve_decision. Defined.

(** A queue item (a Python dict); absent keys are [None]. *)
Record item : Type := Item {
  i_type : item_type;
  i_monitor_id : option string;
  i_status : option string;
  i_data : option raw_data;
  i_timestamp : option Q
}.

(** The per-monitor record of [active_monitors].  The handles of the text
    widgets are left out: they are only passed back to DearPyGui. *)
Record monitor_info : Type := MonitorInfo {
  window_id : string;
  plot_container : string;
  placeholder_tag : option string;
  node_uuid : string;
  output_name : string;
  server_output_name : string;
  node_name : string;
  update_count : nat;
  last_update : Q;
  subscribed : bool;
  dpg_plotter : bool;       (* [true] once a [DPGPlotter] has been created *)
  min_update_interval : Q;
  pending_data : option item;
  skipped_frames : nat
}.

Definition with_placeholder_tag (v : option string) (i : monitor_info) :=
  MonitorInfo (window_id i) (plot_container i) v (node_uuid i) (output_name i)
    (server_output_name i) (node_name i) (update_count i) (last_update i)
    (subscribed i) (dpg_plotter i) (min_update_interval i) (pending_data i)
    (skipped_frames i).
Definition with_update_count (v : nat) (i : monitor_info) :=
  MonitorInfo (window_id i) (plot_container i) (placeholder_tag i) (node_uuid i)
    (output_name i) (server_output_name i) (node_name i) v (last_update i)
    (subscribed i) (dpg_plotter i) (min_update_interval i) (pending_data i)
    (skipped_frames i).
Definition with_last_update (v : Q) (i : monitor_info) :=
  MonitorInfo (window_id i) (plot_container i) (placeholder_tag i) (node_uuid i)
    (output_name i) (server_output_name i) (node_name i) (update_count i) v
    (subscribed i) (dpg_plotter i) (min_update_interval i) (pending_data i)
    (skipped_frames i).
Definition with_subscribed (v : bool) (i : monitor_info) :=
  MonitorInfo (window_id i) (plot_container i) (placeholder_tag i) (node_uuid i)
    (output_name i) (server_output_name i) (node_name i) (update_count i)
    (last_update i) v (dpg_plotter i) (min_update_interval i) (pending_data i)
    (skipped_frames i).
Definition with_dpg_plotter (v : bool) (i : monitor_info) :=
  MonitorInfo (window_id i) (plot_container i) (placeholder_tag i) (node_uuid i)
    (output_name i) (server_output_name i) (node_name i) (update_count i)
    (last_update i) (subscribed i) v (min_update_interval i) (pending_data i)
    (skipped_frames i).
Definition with_min_update_interval (v : Q) (i : monitor_info) :=
  MonitorInfo (window_id i) (plot_container i) (placeholder_tag i) (node_uuid i)
    (output_name i) (server_output_name i) (node_name i) (update_count i)
    (last_update i) (subscribed i) (dpg_plotter i) v (pending_data i)
    (skipped_frames i).
Definition with_pending_data (v : option item) (i : monitor_info) :=
  MonitorInfo (window_id i) (plot_container i) (placeholder_tag i) (node_uuid i)
    (output_name i) (server_output_name i) (node_name i) (update_count i)
    (last_update i) (subscribed i) (dpg_plotter i) (min_update_interval i) v
    (skipped_frames i).
Definition with_skipped_frames (v : nat) (i : monitor_info) :=
  MonitorInfo (window_id i) (plot_container i) (placeholder_tag i) (node_uuid i)
    (output_name i) (server_output_name i) (node_name i) (update_count i)
    (last_update i) (subscribed i) (dpg_plotter i) (min_update_interval i)
    (pending_data i) v.

(** Messages sent with [sio.emit]. *)
Inductive wire_msg : Type :=
| get_params
| newdata (outputs : list string)
| unsubscribe (output : string)
| test_connection.

(** The fields of [NodeManager] the pipeline reads and writes. *)
Record NM : Type := MkNM {
  active_monitors : list (string * monitor_info);
  subscribed_outputs : gset string;
  monitor_data_queue : list item;      (* Queue(maxsize=100) *)
  status_update_queue : list item;     (* Queue(maxsize=50) *)
  socketio_connected : bool;
  socketio_enabled : bool;
  monitor_running : bool;
  simple_displays : gset string;
  dpg_items : gset string;
  wire : list wire_msg;
  monitor_lock : bool       (* held by a handler that waits inside its block *)
}.

Definition data_maxsize : nat := 100.
Definition status_maxsize : nat := 50.

Definition set_active_monitors (v : list (string * monitor_info)) (s : NM) :=
  MkNM v (subscribed_outputs s) (monitor_data_queue s) (status_update_queue s)
    (socketio_connected s) (socketio_enabled s) (monitor_running s)
    (simple_displays s) (dpg_items s) (wire s)
    (monitor_lock s).
Definition set_subscribed_outputs (v : gset string) (s : NM) :=
  MkNM (active_monitors s) v (monitor_data_queue s) (status_update_queue s)
    (socketio_connected s) (socketio_enabled s) (monitor_running s)
    (simple_displays s) (dpg_items s) (wire s)
    (monitor_lock s).
Definition set_monitor_data_queue (v : list item) (s : NM) :=
  MkNM (active_monitors s) (subscribed_outputs s) v (status_update_queue s)
    (socketio_connected s) (socketio_enabled s) (monitor_running s)
    (simple_displays s) (dpg_items s) (wire s)
    (monitor_lock s).
Definition set_status_update_queue (v : list item) (s : NM) :=
  MkNM (active_monitors s) (subscribed_outputs s) (monitor_data_queue s) v
    (socketio_connected s) (socketio_enabled s) (monitor_running s)
    (simple_displays s) (dpg_items s) (wire s)
    (monitor_lock s).
Definition set_socketio_connected (v : bool) (s : NM) :=
  MkNM (active_monitors s) (subscribed_outputs s) (monitor_data_queue s)
    (status_update_queue s) v (socketio_enabled s) (monitor_running s)
    (simple_displays s) (dpg_items s) (wire s)
    (monitor_lock s).
Definition set_monitor_running (v : bool) (s : NM) :=
  MkNM (active_monitors s) (subscribed_outputs s) (monitor_data_queue s)
    (status_update_queue s) (socketio_connected s) (socketio_enabled s) v
    (simple_displays s) (dpg_items s) (wire s)
    (monitor_lock s).
Definition set_simple_displays (v : gset string) (s : NM) :=
  MkNM (active_monitors s) (subscribed_outputs s) (monitor_data_queue s)
    (status_update_queue s) (socketio_connected s) (socketio_enabled s)
    (monitor_running s) v (dpg_items s) (wire s)
    (monitor_lock s).
Definition set_dpg_items (v : gset string) (s : NM) :=
  MkNM (active_monitors s) (subscribed_outputs s) (monitor_data_queue s)
    (status_update_queue s) (socketio_connected s) (socketio_enabled s)
    (monitor_running s) (simple_displays s) v (wire s) (monitor_lock s).
Definition set_wire (v : list wire_msg) (s : NM) :=
  MkNM (active_monitors s) (subscribed_outputs s) (monitor_data_queue s)
    (status_update_queue s) (socketio_connected s) (socketio_enabled s)
    (monitor_running s) (simple_displays s) (dpg_items s) v (monitor_lock s).
Definition set_monitor_lock (v : bool) (s : NM) :=
  MkNM (active_monitors s) (subscribed_outputs s) (monitor_data_queue s)
    (status_update_queue s) (socketio_connected s) (socketio_enabled s)
    (monitor_running s) (simple_displays s) (dpg_items s) (wire s) v.

(** ** The monad of handlers: state passing, with waiting on a full queue *)

Inductive outcome (A : Type) : Type :=
| Done (a : A) (s : NM)      (* the handler returned [a] *)
| Blocked (s : NM).          (* the handler waits: in [Queue.put], or for
                                the monitor lock *)
Arguments Done {A} a s.
Arguments Blocked {A} s.

Definition M (A : Type) : Type := NM → outcome A.

Definition ret {A} (a : A) : M A := λ s, Done a s.

Definition bind {A B} (c : M A) (k : A → M B) : M B :=
  λ s, match c s with
       | Done a s' => k a s'
       | Blocked s' => Blocked s'
       end.

Notation "'do' x <- c ; k" := (bind c (λ x, k))
  (at level 10, x name, c at level 100, k at level 200).
Notation "'run' c ; k" := (bind c (λ _, k))
  (at level 10, c at level 100, k at level 200).

Definition gets {A} (f : NM → A) : M A := λ s, Done (f s) s.
Definition modify (f : NM → NM) : M unit := λ s, Done tt (f s).

(** The state in which a handler stops, returned or waiting. *)
Definition final {A} (o : outcome A) : NM :=
  match o with Done _ s => s | Blocked s => s end.

Fixpoint for_each {A} (xs : list A) (body : A → M unit) : M unit :=
  match xs with
  | [] => ret tt
  | x :: xs' => run body x; for_each xs' body
  end.

Definition when (b : bool) (c : M unit) : M unit := if b then c else ret tt.

(** [with self.monitor_lock:] at the head of a function: the caller waits
    while a handler holds the lock. *)
Definition wait_monitor_lock : M unit :=
  λ s, if monitor_lock s then Blocked s else Done tt s.

(** A [with self.monitor_lock:] block in which the handler may come to wait:
    it waits with the lock held. *)
Definition holding_monitor_lock {A} (c : M A) : M A :=
  λ s, match c s with
       | Done a s' => Done a s'
       | Blocked s' => Blocked (set_monitor_lock true s')
       end.

(** Python truthiness of a string. *)
Definition truthy (x : string) : bool := negb (bool_decide (x = "")).

(** ** Primitive effects *)

Definition emit (m : wire_msg) : M unit :=
  modify (λ s, set_wire (wire s ++ [m]) s).

Definition does_item_exist (tag : string) (s : NM) : bool :=
  bool_decide (tag ∈ dpg_items s).

(** [dpg.delete_item]; the children DearPyGui removes along with the item are
    never consulted after their parent is gone. *)
Definition delete_item (tag : string) : M unit :=
  modify (λ s, set_dpg_items (dpg_items s ∖ {[tag]}) s).

Definition monitor_data_queue_put (x : item) : M unit :=
  λ s, match Queue.put data_maxsize (monitor_data_queue s) x with
       | Some q => Done tt (set_monitor_data_queue q s)
       | None => Blocked s
       end.

Definition status_update_queue_put (x : item) : M unit :=
  λ s, match Queue.put status_maxsize (status_update_queue s) x with
       | Some q => Done tt (set_status_update_queue q s)
       | None => Blocked s
       end.

(** ** Status and event handlers *)

Definition status_item (monitor_id status : string) (now : Q) : item :=
  Item type_status_update (Some monitor_id) (Some status) None (Some now).

(** [_safe_update_monitor_status]: when the status queue is full its oldest
    item is taken out before the new one is put. *)
Definition _safe_update_monitor_status
    (monitor_id status : string) (now : Q) : M unit :=
  run (λ s,
        if Queue.full status_maxsize (status_update_queue s) then
          match Queue.get_nowait (status_update_queue s) with
          | Some (_, q) => Done tt (set_status_update_queue q s)
          | None => Done tt s
          end
        else Done tt s);
  status_update_queue_put (status_item monitor_id status now).

(** The [connect] event. *)
Definition connect : M unit :=
  run modify (set_socketio_connected true);
  run monitor_data_queue_put
        (Item type_status_update None (Some "connected") None None);
  emit get_params.

(** A [data_update] event as received: [data.get('name')] and
    [data.get('data')]. *)
Record data_event : Type := DataEvent {
  ev_name : option string;
  ev_data : option raw_data
}.

Definition data_item (monitor_id : string) (raw : raw_data) (now : Q) : item :=
  Item type_data_update (Some monitor_id) None (Some raw) (Some now).

Definition monitors_of (name : string) (s : NM) : list (string * monitor_info) :=
  filter (λ p, server_output_name p.2 = name) (active_monitors s).

(** The [data_update] event. *)
Definition data_update (data : data_event) (now : Q) : M unit :=
  match ev_name data, ev_data data with
  | Some name, Some raw_data =>
      if negb (truthy name) then ret tt else
      do qsize <- gets (λ s, Queue.qsize (monitor_data_queue s));
      if bool_decide (100 ≤ qsize) then ret tt else
      holding_monitor_lock
        (do matching_monitors <- gets (monitors_of name);
         match matching_monitors with
         | [] => ret tt
         | _ =>
             for_each matching_monitors (λ p,
               monitor_data_queue_put (data_item p.1 raw_data now))
         end)
  | _, _ => ret tt
  end.

Definition notify_all (status : string) (now : Q) : M unit :=
  do ids <- gets (λ s, Dict.keys (active_monitors s));
  for_each ids (λ monitor_id, _safe_update_monitor_status monitor_id status now).

(** The [connect_error] and [disconnect] events. *)
Definition connect_error (now : Q) : M unit :=
  run modify (set_socketio_connected false);
  notify_all "disconnected" now.

Definition disconnect (now : Q) : M unit :=
  run modify (set_socketio_connected false);
  notify_all "disconnected" now.

(** ** Flow control *)

Definition _request_next_frame : M unit :=
  do connected <- gets socketio_connected;
  if negb connected then ret tt else
  do outputs <- gets subscribed_outputs;
  if bool_decide (outputs = ∅) then ret tt else
  emit (newdata (elements outputs)).

(** The [done] event. *)
Definition done : M unit :=
  do outputs <- gets subscribed_outputs;
  if bool_decide (outputs = ∅) then ret tt else _request_next_frame.

(** ** Subscriptions *)

Definition _send_unsubscribe_request (server_output_name : string) : M unit :=
  do connected <- gets socketio_connected;
  if negb connected then ret tt else emit (unsubscribe server_output_name).

(** The loop over the monitors bound to [name] that sets their [subscribed]
    flag and queues the matching status. *)
Definition mark_monitors (name : string) (flag : bool) (status : string)
    (now : Q) : M unit :=
  do matching <- gets (monitors_of name);
  for_each matching (λ p,
    run modify (λ s, set_active_monitors
                       (Dict.alter (with_subscribed flag) p.1 (active_monitors s)) s);
    _safe_update_monitor_status p.1 status now).

Definition _unsubscribe_output (name : string) (now : Q) : M unit :=
  if negb (truthy name) then ret tt else
  do monitors_using_output <- gets (λ s, Dict.keys (monitors_of name s));
  do outputs <- gets subscribed_outputs;
  match monitors_using_output with
  | [] =>
      if bool_decide (name ∈ outputs) then
        run modify (set_subscribed_outputs (outputs ∖ {[name]}));
        do connected <- gets socketio_connected;
        run when connected (_send_unsubscribe_request name);
        mark_monitors name false "unsubscribed" now
      else ret tt
  | _ => ret tt
  end.

Definition _subscribe_output (name : string) (now : Q) : M unit :=
  if negb (truthy name) then ret tt else
  do outputs <- gets subscribed_outputs;
  run (if bool_decide (name ∈ outputs) then ret tt
       else
         run modify (set_subscribed_outputs (outputs ∪ {[name]}));
         mark_monitors name true "subscribed" now);
  do connected <- gets socketio_connected;
  when connected _request_next_frame.

(** [_connect_socketio]; [connect_ok] tells whether [sio.connect] returns or
    raises. *)
Definition _connect_socketio (connect_ok : bool) : M unit :=
  do enabled <- gets socketio_enabled;
  if negb enabled then ret tt else
  if connect_ok then
    run modify (set_socketio_connected true);
    emit test_connection
  else modify (set_socketio_connected false).

(** ** Closing a monitor *)

(** First loop of [_clear_queue_for_monitor]: take items until the queue is
    empty, copying to [temp_queue] those of other monitors.  [temp_queue] is
    unbounded, so its [put] is an append. *)
Fixpoint clear_scan (monitor_id : string) (q temp_queue : list item) : list item :=
  match q with
  | [] => temp_queue
  | item :: q' =>
      if bool_decide (i_monitor_id item ≠ Some monitor_id)
      then clear_scan monitor_id q' (temp_queue ++ [item])
      else clear_scan monitor_id q' temp_queue
  end.

Definition _clear_queue_for_monitor (monitor_id : string) : M unit :=
  do q <- gets monitor_data_queue;
  run modify (set_monitor_data_queue []);
  for_each (clear_scan monitor_id q []) monitor_data_queue_put.

(** [plotter.clear()] acts on the plotter alone, which goes away with the
    monitor record; [simple_displays] is kept as the set of its keys. *)
Definition _close_monitor (monitor_id : string) (from_window_close : bool)
    (now : Q) : M unit :=
  do monitors <- gets active_monitors;
  match Dict.get monitor_id monitors with
  | None => ret tt
  | Some info =>
      let server_output_name := server_output_name info in
      let window_tag := window_id info in
      run modify (set_active_monitors (Dict.del monitor_id monitors));
      do window_exists <- gets (does_item_exist window_tag);
      run when (negb from_window_close && truthy window_tag && window_exists)
            (delete_item window_tag);
      do displays <- gets simple_displays;
      run when (bool_decide (monitor_id ∈ displays))
            (modify (set_simple_displays (displays ∖ {[monitor_id]})));
      run when (truthy server_output_name)
            (_unsubscribe_output server_output_name now);
      run _clear_queue_for_monitor monitor_id;
      do remaining <- gets active_monitors;
      do running <- gets monitor_running;
      match remaining with
      | [] => when running (modify (set_monitor_running false))
      | _ => ret tt
      end
  end.

(** ** Rendering and adaptive throttling *)

(** The shape [np.array] gives a nested list; [None] when the nesting is
    ragged and the conversion raises. *)
Fixpoint np_shape (v : pyval) : option (list N) :=
  match v with
  | PyNum _ => Some []
  | PyList xs =>
      match List.map np_shape xs with
      | [] => Some [0%N]
      | Some d :: rest =>
          if forallb (λ o, bool_decide (o = Some d)) rest
          then Some (N.of_nat (length xs) :: d) else None
      | None :: _ => None
      end
  end.

(** [data_array.size]. *)
Definition np_size (dims : list N) : N := foldr N.mul 1%N dims.

(** [np.array(data_value)] for a list, [np.array([data_value])] otherwise. *)
Definition to_array (data_value : pyval) : option (list N) :=
  match data_value with
  | PyList _ => np_shape data_value
  | PyNum _ => Some [1%N]
  end.

Definition reshape (shape : option (list N)) (dims : list N) : list N :=
  match shape with
  | Some (d :: ds) =>
      if bool_decide (np_size (d :: ds) = np_size dims) then d :: ds else dims
  | _ => dims
  end.

(** The step table of the 2-D branch. *)
Definition interval_for (pixel_count : N) : Q :=
  if bool_decide (1000000 < pixel_count)%N then 1 # 2
  else if bool_decide (250000 < pixel_count)%N then 1 # 4
  else if bool_decide (10000 < pixel_count)%N then 1 # 10
  else 1 # 20.

Inductive plot_method : Type := plot_history | plot_vector | plot_2d_image_clean.

Definition alter_monitor (f : monitor_info → monitor_info) (monitor_id : string)
  : M unit :=
  modify (λ s, set_active_monitors (Dict.alter f monitor_id (active_monitors s)) s).

Definition del_monitor (monitor_id : string) : M unit :=
  modify (λ s, set_active_monitors (Dict.del monitor_id (active_monitors s)) s).

(** [time_since_update >= min_interval]. *)
Definition due (now : Q) (info : monitor_info) : bool :=
  Qle_bool (min_update_interval info) (now - last_update info)%Q.

Section Render.
(** Result of a plot method of the monitor's [DPGPlotter] on an array of
    the given shape and content. *)
Variable plotter_ok : string → plot_method → list N → pyval → bool.

(** The [info] argument of the source is the table entry of [monitor_id]:
    its mutations are mutations of that entry.  The lock is taken for the
    membership test at the head; the second block, on the branch of the
    missing window, follows it within the call. *)
Definition _process_and_plot_data_main_thread
    (monitor_id : string) (raw : raw_data) (now : Q) : M bool :=
  run wait_monitor_lock;
  do monitors <- gets active_monitors;
  match Dict.get monitor_id monitors with
  | None => ret false
  | Some info =>
      let window_tag := window_id info in
      do window_exists <- gets (does_item_exist window_tag);
      if negb (truthy window_tag && window_exists) then
        run del_monitor monitor_id; ret false
      else
      let container := plot_container info in
      do container_exists <- gets (does_item_exist container);
      if negb (truthy container && container_exists) then ret false else
      run match placeholder_tag info with
          | Some placeholder =>
              do placeholder_exists <- gets (does_item_exist placeholder);
              when (truthy placeholder && placeholder_exists)
                (run delete_item placeholder;
                 alter_monitor (with_placeholder_tag None) monitor_id)
          | None => ret tt
          end;
      match raw with
      | RawOther | RawDict None _ => ret false
      | RawDict (Some data_value) shape =>
          match to_array data_value with
          | None => ret false
          | Some dims =>
              let data_array := reshape shape dims in
              run alter_monitor (with_dpg_plotter true) monitor_id;
              do success <-
                match data_array with
                | [] => ret (plotter_ok monitor_id plot_history [] data_value)
                | [n] =>
                    if bool_decide (n = 1%N)
                    then ret (plotter_ok monitor_id plot_history [n] data_value)
                    else ret (plotter_ok monitor_id plot_vector [n] data_value)
                | [height; width] =>
                    run alter_monitor
                          (with_min_update_interval
                             (interval_for (height * width)%N)) monitor_id;
                    ret (plotter_ok monitor_id plot_2d_image_clean
                           [height; width] data_value)
                | [height; width; _] =>
                    ret (plotter_ok monitor_id plot_2d_image_clean
                           [height; width] data_value)
                | _ => ret false
                end;
              if success then
                run alter_monitor
                      (λ i, with_update_count (S (update_count i))
                              (with_last_update now i)) monitor_id;
                ret true
              else ret false
          end
      end
  end.

Definition item_raw (it : item) : raw_data :=
  default (RawDict None None) (i_data it).

(** Body of the bounded loop of [_monitor_update_frame] for one item taken
    from the data queue; returns whether the item was rendered.  Its
    [with self.monitor_lock:] blocks come after the one at the head of the
    frame, within the same invocation. *)
Definition process_queue_item (it : item) (now : Q) : M bool :=
  match i_type it, i_monitor_id it with
  | type_data_update, Some monitor_id =>
      do monitors <- gets active_monitors;
      match Dict.get monitor_id monitors with
      | None => ret false
      | Some info =>
          let window_tag := window_id info in
          do window_exists <- gets (does_item_exist window_tag);
          if negb (truthy window_tag && window_exists) then
            run del_monitor monitor_id; ret false
          else if due now info then
            do success <-
              _process_and_plot_data_main_thread monitor_id (item_raw it) now;
            if success then
              run alter_monitor (with_last_update now) monitor_id;
              run _safe_update_monitor_status monitor_id "receiving" now;
              ret true
            else ret false
          else
            run alter_monitor
                  (λ i, with_skipped_frames (S (skipped_frames i))
                          (with_pending_data (Some it) i)) monitor_id;
            ret false
      end
  | _, _ => ret false
  end.

(** [for _ in range(n)]: stop at an empty queue, else take one item. *)
Fixpoint drain_data_queue (n : nat) (now : Q) : M nat :=
  match n with
  | 0 => ret 0
  | S n' =>
      do q <- gets monitor_data_queue;
      match Queue.get_nowait q with
      | None => ret 0
      | Some (it, q') =>
          run modify (set_monitor_data_queue q');
          do processed <- process_queue_item it now;
          do processed_count <- drain_data_queue n' now;
          ret ((if processed then 1 else 0) + processed_count)
      end
  end.

(** The sweep over pending samples. *)
Definition render_pending (monitor_id : string) (now : Q) : M unit :=
  do monitors <- gets active_monitors;
  match Dict.get monitor_id monitors with
  | None => ret tt
  | Some info =>
      match pending_data info with
      | None => ret tt
      | Some it =>
          if due now info then
            do success <-
              _process_and_plot_data_main_thread monitor_id (item_raw it) now;
            if success then
              run alter_monitor
                    (λ i, with_pending_data None (with_last_update now i))
                    monitor_id;
              _safe_update_monitor_status monitor_id "receiving" now
            else ret tt
          else ret tt
      end
  end.

Definition max_items_per_frame : nat := 5.

(** The status loop takes every queued status item; what it does with one
    is a DearPyGui text update. *)
Fixpoint status_scan (q : list item) : list item :=
  match q with
  | [] => []
  | _ :: q' => status_scan q'
  end.

(** [_monitor_update_frame]; returns whether the delayed frame request was
    started and the number of host frames until the next invocation.  The
    snapshot of the monitor ids under the lock is the first thing it does:
    an invocation that waits there has taken nothing and re-arms nothing. *)
Definition _monitor_update_frame (now : Q) : M (bool * nat) :=
  run wait_monitor_lock;
  run modify (λ s, set_status_update_queue
                     (status_scan (status_update_queue s)) s);
  do processed_count <- drain_data_queue max_items_per_frame now;
  do monitor_ids <- gets (λ s, Dict.keys (active_monitors s));
  run for_each monitor_ids (λ monitor_id, render_pending monitor_id now);
  do connected <- gets socketio_connected;
  do qsize <- gets (λ s, Queue.qsize (monitor_data_queue s));
  let request :=
    bool_decide (0 < processed_count) && connected && bool_decide (qsize < 20) in
  let next_frame :=
    if bool_decide (10 < qsize) then 1
    else if bool_decide (0 < qsize) then 2 else 10 in
  ret (request, next_frame).
End Render.

(** The detached thread started after a render pass. *)
Definition delayed_request : M unit :=
  do outputs <- gets subscribed_outputs;
  if bool_decide (outputs = ∅) then ret tt else _request_next_frame.

(** ** Queue health *)

(** The draining loop of [_monitor_queue_health]: [latest_items] is keyed by
    monitor id, [temp_items] keeps the other items. *)
Fixpoint health_scan (q : list item)
    (latest_items : list (option string * item)) (temp_items : list item)
  : list (option string * item) * list item :=
  match q with
  | [] => (latest_items, temp_items)
  | it :: q' =>
      match i_type it with
      | type_data_update =>
          health_scan q' (Dict.set (i_monitor_id it) it latest_items) temp_items
      | type_status_update =>
          health_scan q' latest_items (temp_items ++ [it])
      end
  end.

Definition _monitor_queue_health : M unit :=
  do q <- gets monitor_data_queue;
  if bool_decide (50 < Queue.qsize q) then
    run modify (set_monitor_data_queue []);
    let scanned := health_scan q [] [] in
    for_each (Dict.values scanned.1 ++ scanned.2) monitor_data_queue_put
  else ret tt.

(** ** Vocabulary of the statements *)

(** Both queues hold no more items than their [maxsize]. *)
Definition within_capacity (s : NM) : Prop :=
  length (monitor_data_queue s) ≤ data_maxsize ∧
  length (status_update_queue s) ≤ status_maxsize.

(** The calls that put an item on a queue. *)
Inductive push : Type :=
| PushStatus (monitor_id status : string) (now : Q)
| PushData (data : data_event) (now : Q)
| PushConnect
| PushConnectError (now : Q)
| PushDisconnect (now : Q).

Definition push_step (e : push) : M unit :=
  match e with
  | PushStatus monitor_id status now =>
      _safe_update_monitor_status monitor_id status now
  | PushData data now => data_update data now
  | PushConnect => connect
  | PushConnectError now => connect_error now
  | PushDisconnect now => disconnect now
  end.

(** The shape of [data_array] after conversion and reshaping. *)
Definition payload_shape (raw : raw_data) : option (list N) :=
  match raw with
  | RawDict (Some data_value) shape => reshape shape <$> to_array data_value
  | _ => None
  end.

Definition is_data (it : item) : Prop := i_type it = type_data_update.

Definition non_data (it : item) : Prop := i_type it ≠ type_data_update.

(** [it] is a [data_update] item addressed to [monitor_id]. *)
Definition data_for (monitor_id : option string) (it : item) : Prop :=
  i_type it = type_data_update ∧ i_monitor_id it = monitor_id.

#[global] Instance is_data_dec it : Decision (is_data it) :=
  decide (i_type it = type_data_update).

#[global] Instance non_data_dec it : Decision (non_data it) :=
  decide (i_type it ≠ type_data_update).

#[global] Instance data_for_dec monitor_id it : Decision (data_for monitor_id it) :=
  decide (i_type it = type_data_update ∧ i_monitor_id it = monitor_id).

(** The most recently enqueued [data_update] item of a monitor. *)
Definition latest_for (monitor_id : option string) (q : list item) : option item :=
  last (filter (data_for monitor_id) q).

(** An entry of [latest_items] is filed under the monitor id of its item. *)
Definition keyed (p : option string * item) : Prop := data_for p.1 p.2.

(** ** Sample configurations *)

Definition psf_monitor : monitor_info :=
  MonitorInfo "monitor_m1" "monitor_m1_plot_container"
    (Some "monitor_m1_placeholder") "uuid1" "out" "psf.out" "psf"
    0 0 false false (1 # 10) None 0.

Definition psf_items : gset string :=
  {[ "monitor_m1"; "monitor_m1_plot_container"; "monitor_m1_placeholder" ]}.


(** The same monitor, subscribed. *)
Definition online_NM : NM :=
  MkNM [("m1", psf_monitor)] {[ "psf.out" ]} [] [] true true true ∅ psf_items []
    false.

Definition offline_NM : NM := set_socketio_connected false online_NM.

Definition image_2x2 : raw_data :=
  RawDict (Some (PyList [PyList [PyNum 1; PyNum 2]; PyList [PyNum 3; PyNum 4]]))
          None.

(** 12000 samples sent flat, with [shape = [200, 60]]. *)
Definition image_200x60 : raw_data :=
  RawDict (Some (PyList (replicate (N.to_nat 12000) (PyNum 0))))
          (Some [200%N; 60%N]).

Definition oldest_item : item := data_item "m1" image_2x2 1.

(** The data queue holds 100 items. *)
Definition full_NM : NM :=
  set_monitor_data_queue
    (oldest_item :: replicate 99 (data_item "m1" image_2x2 2)) online_NM.

(** 61 data items of two monitors and one status item. *)
Definition backlog_NM : NM :=
  set_monitor_data_queue
    (replicate 30 (data_item "m1" image_2x2 1)
     ++ [Item type_status_update None (Some "connected") None None;
         data_item "m2" image_2x2 2]
     ++ replicate 29 (data_item "m1" image_2x2 3)
     ++ [data_item "m1" image_2x2 4]) online_NM.

(** The window of the monitor has gone, one sample is queued. *)
Definition windowless_NM : NM :=
  set_dpg_items ∅
    (set_monitor_data_queue [data_item "m1" image_2x2 0] online_NM).

Definition always_plots : string → plot_method → list N → pyval → bool :=
  λ _ _ _ _, true.

(** Two samples for a monitor rendered at time 1; the frame runs 1/20 s
    later. *)
Definition early_NM : NM :=
  set_active_monitors [("m1", with_last_update 1 psf_monitor)]
    (set_monitor_data_queue
       [data_item "m1" image_2x2 1; data_item "m1" image_200x60 1] online_NM).


(** * The rest of the module, and [graph_manager.py]

    The node table of [GraphManager], the naming of nodes and outputs, and
    the opening, sweeping and shutting down of monitors.  A [KeyError] or
    [ValueError] the source lets escape is the result [None]; the outcome of
    [sio.connect] and the delivery of the [disconnect] event by
    [sio.disconnect] are arguments of the functions that depend on them. *)

(** ** Strings *)

(** [str.lower] on ASCII letters; node types and names are taken to be
    ASCII. *)
Definition ascii_lower (c : Ascii.ascii) : Ascii.ascii :=
  let n := Ascii.nat_of_ascii c in
  if bool_decide (65 ≤ n ≤ 90) then Ascii.ascii_of_nat (n + 32) else c.

Fixpoint lower (s : string) : string :=
  match s with
  | EmptyString => EmptyString
  | String c s' => String (ascii_lower c) (lower s')
  end.

(** [int(x)] of a float: truncation towards zero. *)
Definition py_int (x : Q) : Z := Z.quot (Qnum x) (Z.pos (Qden x)).

(** ** The graph model ([GraphManager]) *)

(** Parameter values are YAML scalars and lists. *)
#[local] Unset Elimination Schemes.
Inductive pyobj : Type :=
| ONone
| OBool (b : bool)
| ONum (x : Q)
| OStr (s : string)
| OList (xs : list pyobj).
#[local] Set Elimination Schemes.

(** The metadata dict of a parameter or an input; absent keys are [None]. *)
Record param_meta : Type := ParamMeta {
  pm_default : option pyobj;
  pm_kind : option string
}.

Record template : Type := Template {
  t_name : option string;
  t_inputs : option (list (string * param_meta));
  t_outputs : option (list string);
  t_parameters : option (list (string * param_meta))
}.

Record node_data : Type := NodeData {
  nd_type : option string;
  nd_name : option string;
  nd_inputs : list (string * param_meta);
  nd_outputs : list string;
  nd_parameters : list (string * param_meta);
  nd_values : list (string * pyobj);
  nd_filename_map : option (list (string * string))
}.

Definition connection : Type := string * string * string * string.

Module GraphManager.

Record t : Type := Make {
  templates : list (string * template);
  nodes : list (string * node_data);
  connections : list connection
}.

(** [__init__]. *)
Definition init (templates : list (string * template)) : t :=
  Make templates [] [].

(** The template written for an unknown node type. *)
Definition fallback_template (node_type : string) : template :=
  Template (Some node_type) (Some []) (Some []) (Some []).

(** The loop that copies the defaults into [values]. *)
Definition default_values (parameters : list (string * param_meta))
  : list (string * pyobj) :=
  foldl (λ values p,
           match pm_default p.2 with
           | Some v => Dict.set p.1 v values
           | None => values
           end) [] parameters.

Definition add_node (node_uuid node_type : string) (g : t) : t :=
  let templates :=
    match Dict.get node_type (templates g) with
    | Some _ => templates g
    | None => Dict.set node_type (fallback_template node_type) (templates g)
    end in
  match Dict.get node_type templates with
  | None => g      (* not reached: the key was just written *)
  | Some template =>
      let parameters := default [] (t_parameters template) in
      let node :=
        NodeData (Some node_type)
          (Some (default node_type (t_name template)))
          (default [] (t_inputs template))
          (default [] (t_outputs template))
          parameters
          (default_values parameters)
          (Some []) in
      Make templates (Dict.set node_uuid node (nodes g)) (connections g)
  end.

Definition remove_node (node_id : string) (g : t) : t :=
  Make (templates g)
       (match Dict.get node_id (nodes g) with
        | Some _ => Dict.del node_id (nodes g)
        | None => nodes g
        end)
       (filter (λ c : connection, c.1.1.1 ≠ node_id ∧ c.1.2 ≠ node_id)
               (connections g)).

Definition add_connection (output_node output_attr input_node input_attr : string)
    (g : t) : bool * t :=
  (true, Make (templates g) (nodes g)
              (connections g ++ [(output_node, output_attr, input_node, input_attr)])).

(** [list.remove]: the first equal element goes; [None] stands for the
    [ValueError] raised when there is none. *)
Fixpoint list_remove {A} `{EqDecision A} (x : A) (l : list A) : option (list A) :=
  match l with
  | [] => None
  | y :: l' => if decide (y = x) then Some l' else (y ::.) <$> list_remove x l'
  end.

Definition remove_connection (output_node output_attr input_node input_attr : string)
    (g : t) : option t :=
  Make (templates g) (nodes g) <$>
    list_remove (output_node, output_attr, input_node, input_attr) (connections g).

End GraphManager.

(** ** The editor side of [NodeManager] *)

(** An entry of the server's node listing. *)
Record server_node : Type := ServerNode {
  sn_class : option string;
  sn_outputs : option (list string)
}.

(** The fields of [NodeManager] used for naming. *)
Record Editor : Type := MkEditor {
  graph : GraphManager.t;
  uuid_to_server_name : list (string * string);
  server_params : list (string * server_node);
  class_name_counters : list (string * N)
}.

Definition set_graph (v : GraphManager.t) (e : Editor) :=
  MkEditor v (uuid_to_server_name e) (server_params e) (class_name_counters e).
Definition set_uuid_to_server_name (v : list (string * string)) (e : Editor) :=
  MkEditor (graph e) v (server_params e) (class_name_counters e).
Definition set_server_params (v : list (string * server_node)) (e : Editor) :=
  MkEditor (graph e) (uuid_to_server_name e) v (class_name_counters e).
Definition set_class_name_counters (v : list (string * N)) (e : Editor) :=
  MkEditor (graph e) (uuid_to_server_name e) (server_params e) v.

Definition _generate_unique_name (class_name : string) (e : Editor)
  : string * Editor :=
  let counters :=
    match Dict.get class_name (class_name_counters e) with
    | Some _ => class_name_counters e
    | None => Dict.set class_name 0%N (class_name_counters e)
    end in
  let counter := default 0%N (Dict.get class_name counters) in
  ("a" +:+ class_name +:+ pretty counter,
   set_class_name_counters (Dict.set class_name (counter + 1)%N counters) e).

(** The inner loop of [_update_uuid_mapping]: the first listed server node
    of the node's class, or of the node's name up to case. *)
Definition find_server (node : node_data)
    (listing : list (string * server_node)) : option string :=
  let node_type := default "" (nd_type node) in
  let node_name := default "" (nd_name node) in
  (λ p, (p.2).1) <$>
  list_find (λ p : string * server_node,
               node_type = default "" (sn_class p.2) ∨
               lower node_name = lower p.1) listing.

Definition _update_uuid_mapping (e : Editor) : Editor :=
  set_uuid_to_server_name
    (foldl (λ mapping p,
              match find_server p.2 (server_params e) with
              | Some server_name => Dict.set p.1 server_name mapping
              | None => mapping
              end)
           (uuid_to_server_name e) (GraphManager.nodes (graph e))) e.

(** The [params] event. *)
Definition params (data : list (string * server_node)) (now : Q) (e : Editor)
  : M Editor :=
  match data with
  | [] => ret e
  | _ =>
      let e' := _update_uuid_mapping (set_server_params data e) in
      run notify_all "connected" now;
      ret e'
  end.

Definition type_to_name : list (string * string) :=
  [("PSF", "psf"); ("AtmoPropagation", "prop"); ("ModulatedPyramid", "pyramid");
   ("ModalAnalysis", "modal_analysis"); ("CCD", "detector");
   ("PyrSlopec", "slopec"); ("Modalrec", "rec"); ("Integrator", "control");
   ("DM", "dm"); ("AtmoEvolution", "atmo")].

(** [d.get(k)] followed by a truthiness test. *)
Definition get_truthy (k : string) (d : list (string * string)) : option string :=
  match Dict.get k d with
  | Some v => if truthy v then Some v else None
  | None => None
  end.

Definition _get_server_output_name (node_uuid output_name : string) (e : Editor)
  : string * Editor :=
  let '(server_name, e') :=
    match get_truthy node_uuid (uuid_to_server_name e) with
    | Some server_name => (server_name, e)
    | None =>
        let node_type :=
          default "" (Dict.get node_uuid (GraphManager.nodes (graph e))
                        ≫= nd_type) in
        let server_name :=
          match get_truthy node_type type_to_name with
          | Some server_name => server_name
          | None =>
              if truthy node_type then lower node_type
              else "node_" +:+ String.substring 0 4 node_uuid
          end in
        (server_name,
         set_uuid_to_server_name
           (Dict.set node_uuid server_name (uuid_to_server_name e)) e)
    end in
  (if truthy server_name && truthy output_name
   then server_name +:+ "." +:+ output_name
   else "unknown." +:+ (if truthy output_name then output_name else "output"),
   e').

(** The server-side node name [_get_server_output_name] settles on. *)
Definition resolved_name (node_uuid : string) (e : Editor) : string :=
  match get_truthy node_uuid (uuid_to_server_name e) with
  | Some server_name => server_name
  | None =>
      let node_type :=
        default "" (Dict.get node_uuid (GraphManager.nodes (graph e))
                      ≫= nd_type) in
      match get_truthy node_type type_to_name with
      | Some server_name => server_name
      | None =>
          if truthy node_type then lower node_type
          else "node_" +:+ String.substring 0 4 node_uuid
      end
  end.

(** [get_connection_filename] and [update_connection_filename]; [None]
    stands for the [KeyError] of a node that is not in the graph. *)
Definition get_connection_filename (node_uuid src_uuid src_attr : string)
    (e : Editor) : option string :=
  node ← Dict.get node_uuid (GraphManager.nodes (graph e));
  match nd_filename_map node with
  | None => Some "data"
  | Some filename_map =>
      Some (default "data" (Dict.get (src_uuid +:+ "." +:+ src_attr) filename_map))
  end.

Definition with_filename_map (v : option (list (string * string)))
    (n : node_data) : node_data :=
  NodeData (nd_type n) (nd_name n) (nd_inputs n) (nd_outputs n)
    (nd_parameters n) (nd_values n) v.

Definition update_connection_filename
    (node_uuid src_uuid src_attr new_filename : string) (e : Editor)
  : option Editor :=
  node ← Dict.get node_uuid (GraphManager.nodes (graph e));
  let filename_map := default [] (nd_filename_map node) in
  Some (set_graph
          (GraphManager.Make
             (GraphManager.templates (graph e))
             (Dict.alter
                (with_filename_map
                   (Some (Dict.set (src_uuid +:+ "." +:+ src_attr) new_filename
                                   filename_map)))
                node_uuid (GraphManager.nodes (graph e)))
             (GraphManager.connections (graph e))) e).

(** ** Opening, finding and sweeping monitors *)

Definition _start_monitor_updater : M unit :=
  do running <- gets monitor_running;
  when (negb running) (modify (set_monitor_running true)).

(** The items a monitor window is made of. *)
Definition window_items (window_tag : string) : gset string :=
  {[ window_tag; "conn_" +:+ window_tag; window_tag +:+ "_url";
     window_tag +:+ "_status"; window_tag +:+ "_output";
     window_tag +:+ "_plot_container"; window_tag +:+ "_placeholder";
     "info_" +:+ window_tag ]}.

Definition new_monitor (window_tag node_uuid output_name server_output_name
    node_name : string) : monitor_info :=
  MonitorInfo window_tag (window_tag +:+ "_plot_container")
    (Some (window_tag +:+ "_placeholder")) node_uuid output_name
    server_output_name node_name 0 0 false false (1 # 10) None 0.

Definition monitor_id_of (node_uuid output_name : string) (now : Q) : string :=
  node_uuid +:+ "_" +:+ output_name +:+ "_" +:+ pretty (py_int (now * 1000)).

(** [_open_output_monitor]; [connect_ok] is the outcome of [sio.connect]
    should the transport be found disconnected. *)
Definition _open_output_monitor (node_uuid output_name : string) (now : Q)
    (connect_ok : bool) (e : Editor) : M Editor :=
  match Dict.get node_uuid (GraphManager.nodes (graph e)) with
  | None => ret e
  | Some node =>
      let node_name := default "Unknown" (nd_name node) in
      let '(resolved, e') := _get_server_output_name node_uuid output_name e in
      let server_output_name :=
        if truthy resolved then resolved
        else "node_" +:+ String.substring 0 4 node_uuid +:+ "." +:+ output_name in
      let monitor_id := monitor_id_of node_uuid output_name now in
      let window_tag := "monitor_" +:+ monitor_id in
      do window_exists <- gets (does_item_exist window_tag);
      if window_exists then ret e' else
      run modify (λ s, set_dpg_items (dpg_items s ∪ window_items window_tag) s);
      run modify (λ s, set_active_monitors
                         (Dict.set monitor_id
                            (new_monitor window_tag node_uuid output_name
                               server_output_name node_name)
                            (active_monitors s)) s);
      do running <- gets monitor_running;
      run when (negb running) _start_monitor_updater;
      do connected <- gets socketio_connected;
      run (if negb connected then _connect_socketio connect_ok
           else _subscribe_output server_output_name now);
      run modify (set_monitor_running true);
      ret e'
  end.


(** A monitor whose window is missing. *)
Definition dead (s : NM) (p : string * monitor_info) : Prop :=
  negb (truthy (window_id p.2) && does_item_exist (window_id p.2) s) = true.

#[global] Instance dead_dec s p : Decision (dead s p) :=
  decide (negb (truthy (window_id p.2) && does_item_exist (window_id p.2) s) = true).

Definition _periodic_cleanup : M unit :=
  run modify (λ s, set_simple_displays
                     (filter (λ monitor_id,
                                monitor_id ∈ Dict.keys (active_monitors s))
                             (simple_displays s)) s);
  do dead_monitors <- gets (λ s, Dict.keys (filter (dead s) (active_monitors s)));
  for_each dead_monitors (λ monitor_id,
    run modify (λ s, set_simple_displays (simple_displays s ∖ {[monitor_id]}) s);
    del_monitor monitor_id).


(** ** More sample configurations *)

(** Two monitors on the same output. *)
Definition shared_NM : NM :=
  set_active_monitors
    [("m1", psf_monitor); ("m2", psf_monitor)] online_NM.

(** The same with 99 samples queued: a [data_update] for the output has
    room for the sample of the first monitor only. *)
Definition crowded_NM : NM :=
  set_monitor_data_queue (replicate 99 (data_item "m1" image_2x2 1)) shared_NM.

(** The state that [data_update] leaves there: it waits in [put] for the
    second sample. *)
Definition jammed_NM : NM :=
  final (data_update (DataEvent (Some "psf.out") (Some image_2x2)) 2
           crowded_NM).

(** An editor with one PSF node and one node of a type the table of
    [_get_server_output_name] does not list. *)
Definition fresh_editor : Editor :=
  MkEditor
    (GraphManager.add_node "n2" "ShackHartmann"
       (GraphManager.add_node "n1" "PSF" (GraphManager.init [])))
    [] [] [].

(** The same editor once the server has listed its nodes. *)
Definition server_listing : list (string * server_node) :=
  [("atmo", ServerNode (Some "AtmoEvolution") (Some ["out_layers"]));
   ("psf_science", ServerNode (Some "PSF") (Some ["out_psf"; "out_sr"]))].

Definition listed_editor : Editor :=
  set_uuid_to_server_name [("n1", "psf")]
    (set_server_params server_listing fresh_editor).

(** The template table with one known type: a deformable mirror with a
    default height and no default for its influence functions. *)
Definition dm_templates : list (string * template) :=
  [("DM", Template (Some "Deformable mirror")
            (Some [("in_command", ParamMeta None (Some "BaseValue"))])
            (Some ["out_layer"])
            (Some [("height", ParamMeta (Some (ONum 0)) (Some "float"));
                   ("ifunc_ref", ParamMeta None (Some "str"))]))].


(** * Verification *)

#[local] Arguments monitors_of : simpl never.

(** ** The monad *)

Lemma bind_done {A B} (c : M A) (k : A → M B) s a s' :
  c s = Done a s' → bind c k s = k a s'.
Proof. intros H. unfold bind. by rewrite H. Qed.

Lemma bind_gets {A B} (f : NM → A) (k : A → M B) s :
  bind (gets f) k s = k (f s) s.
Proof. reflexivity. Qed.

Lemma bind_modify {B} (f : NM → NM) (k : unit → M B) s :
  bind (modify f) k s = k tt (f s).
Proof. reflexivity. Qed.


Lemma bind_ret_r {A} (c : M A) s : bind c (λ x, ret x) s = c s.
Proof. unfold bind, ret. by destruct (c s). Qed.

(** The monitor lock: a block that returns leaves no trace of it. *)
Lemma holding_done {A} (c : M A) s a s' :
  c s = Done a s' → holding_monitor_lock c s = Done a s'.
Proof. intros H. unfold holding_monitor_lock. by rewrite H. Qed.

Lemma holding_within {A} (c : M A) s :
  within_capacity (final (c s)) →
  within_capacity (final (holding_monitor_lock c s)).
Proof. unfold holding_monitor_lock. by destruct (c s). Qed.

Lemma bind_wait_free {B} (k : unit → M B) s :
  monitor_lock s = false → bind wait_monitor_lock k s = k tt s.
Proof. intros H. unfold bind, wait_monitor_lock. by rewrite H. Qed.

Lemma bind_wait_held {B} (k : unit → M B) s :
  monitor_lock s = true → bind wait_monitor_lock k s = Blocked s.
Proof. intros H. unfold bind, wait_monitor_lock. by rewrite H. Qed.

(** A loop whose body always returns and keeps [P] returns and keeps [P]. *)
Lemma for_each_done_inv {A} (xs : list A) (body : A → M unit) (P : NM → Prop) :
  (∀ x s, P s → ∃ s', body x s = Done tt s' ∧ P s') →
  ∀ s, P s → ∃ s', for_each xs body s = Done tt s' ∧ P s'.
Proof.
  intros Hbody. induction xs as [|x xs IH]; intros s HP; simpl.
  - by exists s.
  - destruct (Hbody x s HP) as (s' & E & HP').
    rewrite (bind_done _ _ _ _ _ E). by apply IH.
Qed.

(** The same for the state in which the loop stops, returned or waiting. *)
Lemma for_each_final_inv {A} (xs : list A) (body : A → M unit) (P : NM → Prop) :
  (∀ x s, P s → P (final (body x s))) →
  ∀ s, P s → P (final (for_each xs body s)).
Proof.
  intros Hbody. induction xs as [|x xs IH]; intros s HP; simpl; [done|].
  unfold bind. specialize (Hbody x s HP).
  destruct (body x s) as [[] s'|s']; simpl in *; [by apply IH|done].
Qed.

(** ** Dictionaries *)

Section DictFacts.
Context {K V : Type} `{EqDecision K}.
Implicit Types (d : list (K * V)).

Lemma dict_get_del k d : Dict.get k (Dict.del k d) = None.
Proof.
  unfold Dict.del. induction d as [|[k' v] d IH]; [done|].
  rewrite filter_cons. simpl. destruct (decide (k' ≠ k)) as [Hne|Heq]; [|done].
  simpl. by destruct (decide (k' = k)).
Qed.

Lemma dict_get_alter_eq (f : V → V) k d :
  Dict.get k (Dict.alter f k d) = f <$> Dict.get k d.
Proof.
  unfold Dict.alter. induction d as [|[k0 v] d IH]; simpl in *; [done|].
  destruct (decide (k0 = k)) as [->|Hne]; simpl.
  - by rewrite decide_True.
  - rewrite decide_False by done. exact IH.
Qed.

Lemma dict_get_set_eq k v d : Dict.get k (Dict.set k v d) = Some v.
Proof.
  induction d as [|[k' v'] d IH]; simpl.
  - by destruct (decide (k = k)).
  - destruct (decide (k' = k)) as [->|Hne]; simpl.
    + by destruct (decide (k = k)).
    + by destruct (decide (k' = k)).
Qed.

Lemma dict_get_set_ne k k' v d :
  k ≠ k' → Dict.get k' (Dict.set k v d) = Dict.get k' d.
Proof.
  intros Hne. induction d as [|[k0 v0] d IH]; simpl.
  - by destruct (decide (k = k')).
  - destruct (decide (k0 = k)) as [->|Hne0]; simpl.
    + by destruct (decide (k = k')).
    + by rewrite IH.
Qed.

Lemma dict_keys_set k v d :
  Dict.keys (Dict.set k v d) =
  if decide (k ∈ Dict.keys d) then Dict.keys d else Dict.keys d ++ [k].
Proof.
  unfold Dict.keys. induction d as [|[k' v'] d IH]; simpl; [done|].
  destruct (decide (k' = k)) as [->|Hne]; simpl.
  - by rewrite decide_True by (apply elem_of_cons; auto).
  - fold (@fmap list _ _ _ (@fst K V)). rewrite IH.
    destruct (decide (k ∈ d.*1)) as [Hin|Hnin].
    + rewrite decide_True; [done|]. apply elem_of_cons. by right.
    + rewrite decide_False; [done|].
      intros [?|?]%elem_of_cons; [congruence|done].
Qed.

Lemma dict_set_NoDup k v d :
  NoDup (Dict.keys d) → NoDup (Dict.keys (Dict.set k v d)).
Proof.
  intros Hnd. rewrite dict_keys_set. destruct (decide _) as [|Hnin]; [done|].
  apply NoDup_app. split; [done|]. split; [|apply NoDup_singleton].
  intros x Hx ->%list_elem_of_singleton. done.
Qed.

Lemma dict_set_Forall (P : K * V → Prop) k v d :
  P (k, v) → Forall P d → Forall P (Dict.set k v d).
Proof.
  intros Hkv. induction 1 as [|[k' v'] d Hp Hd IH]; simpl.
  - by constructor.
  - destruct (decide (k' = k)); by constructor.
Qed.

Lemma dict_set_length k v d : length (Dict.set k v d) ≤ S (length d).
Proof.
  induction d as [|[k' v'] d IH]; simpl; [lia|].
  destruct (decide (k' = k)); simpl; lia.
Qed.

Lemma dict_get_values k v d : Dict.get k d = Some v → v ∈ Dict.values d.
Proof.
  unfold Dict.values. induction d as [|[k' v'] d IH]; simpl; [done|].
  destruct (decide (k' = k)).
  - intros [= ->]. apply elem_of_cons. by left.
  - intros H. apply elem_of_cons. right. by apply IH.
Qed.

Lemma dict_elem_get k v d :
  NoDup (Dict.keys d) → (k, v) ∈ d → Dict.get k d = Some v.
Proof.
  unfold Dict.keys. induction d as [|[k' v'] d IH]; simpl.
  - by intros _ ?%elem_of_nil.
  - intros [Hnin Hnd]%NoDup_cons [[= -> ->]|Hin]%elem_of_cons.
    + by rewrite decide_True.
    + destruct (decide (k' = k)) as [->|]; [|by apply IH].
      exfalso. apply Hnin. apply list_elem_of_fmap. by exists (k, v).
Qed.
End DictFacts.

Lemma dict_get_alter_ne {V} (f : V → V) (k k' : string) (d : list (string * V)) :
  k ≠ k' → Dict.get k' (Dict.alter f k d) = Dict.get k' d.
Proof.
  intros Hne. unfold Dict.alter.
  induction d as [|[k0 v] d IH]; simpl in *; [done|].
  destruct (decide (k0 = k)) as [->|Hne0]; simpl.
  - rewrite !decide_False by done. exact IH.
  - destruct (decide (k0 = k')); [done|exact IH].
Qed.

Lemma dict_get_del_ne {V} (k k' : string) (d : list (string * V)) :
  k ≠ k' → Dict.get k' (Dict.del k d) = Dict.get k' d.
Proof.
  intros Hne. unfold Dict.del. induction d as [|[k0 v] d IH]; [done|].
  rewrite filter_cons. simpl. destruct (decide (k0 ≠ k)) as [H0|H0]; simpl.
  - destruct (decide (k0 = k')); [done|exact IH].
  - apply dec_stable in H0. subst k0. rewrite decide_False by done. exact IH.
Qed.

Lemma filter_all {A} (P : A → Prop) `{∀ x, Decision (P x)} (l : list A) :
  Forall P l → filter P l = l.
Proof.
  induction 1 as [|x l Hx Hl IH]; [done|].
  by rewrite filter_cons_True, IH.
Qed.

Lemma filter_none {A} (P : A → Prop) `{∀ x, Decision (P x)} (l : list A) :
  Forall (λ x, ¬ P x) l → filter P l = [].
Proof.
  induction 1 as [|x l Hx Hl IH]; [done|].
  by rewrite filter_cons_False.
Qed.

Lemma truthy_true name : name ≠ "" → truthy name = true.
Proof. intros H. unfold truthy. by rewrite bool_decide_eq_false_2. Qed.



(** ** Queues *)

Lemma clear_scan_filter monitor_id q temp_queue :
  clear_scan monitor_id q temp_queue =
  temp_queue ++ filter (λ it, i_monitor_id it ≠ Some monitor_id) q.
Proof.
  revert temp_queue. induction q as [|it q IH]; intros temp_queue; simpl.
  - by rewrite app_nil_r.
  - rewrite filter_cons. case_bool_decide as Hd.
    + rewrite IH. destruct (decide _); [|done]. by rewrite <- app_assoc.
    + rewrite IH. by destruct (decide _).
Qed.

(** Puts that fit below [maxsize] all return. *)
Lemma put_all_done xs s :
  length (monitor_data_queue s) + length xs ≤ data_maxsize →
  for_each xs monitor_data_queue_put s =
  Done tt (set_monitor_data_queue (monitor_data_queue s ++ xs) s).
Proof.
  revert s. induction xs as [|x xs IH]; intros s Hlen; simpl.
  - rewrite app_nil_r. by destruct s.
  - simpl in Hlen. unfold bind, monitor_data_queue_put at 1, Queue.put, Queue.full.
    rewrite bool_decide_eq_false_2 by (unfold data_maxsize in *; lia).
    rewrite IH; simpl.
    + by rewrite <- app_assoc.
    + rewrite length_app. simpl. lia.
Qed.

Lemma data_put_final x s :
  within_capacity s → within_capacity (final (monitor_data_queue_put x s)).
Proof.
  intros [Hd Hs]. unfold monitor_data_queue_put, Queue.put, Queue.full.
  case_bool_decide as Hfull; simpl; [done|].
  split; simpl; [|done]. rewrite length_app. simpl.
  unfold data_maxsize in *. lia.
Qed.

Lemma clear_queue_for_monitor_done monitor_id s :
  length (monitor_data_queue s) ≤ data_maxsize →
  _clear_queue_for_monitor monitor_id s =
  Done tt (set_monitor_data_queue
             (filter (λ it, i_monitor_id it ≠ Some monitor_id)
                     (monitor_data_queue s)) s).
Proof.
  intros Hlen. unfold _clear_queue_for_monitor, bind, gets, modify.
  rewrite put_all_done; simpl.
  - by rewrite clear_scan_filter.
  - rewrite clear_scan_filter. simpl.
    pose proof (length_filter (λ it, i_monitor_id it ≠ Some monitor_id)
                  (monitor_data_queue s)). lia.
Qed.

(** A status push on a queue within its capacity: the oldest item leaves
    exactly when the queue is full. *)
Lemma safe_update_done monitor_id status now s :
  length (status_update_queue s) ≤ status_maxsize →
  _safe_update_monitor_status monitor_id status now s =
  Done tt (set_status_update_queue
             ((if bool_decide (length (status_update_queue s) = status_maxsize)
               then tail (status_update_queue s) else status_update_queue s)
              ++ [status_item monitor_id status now]) s).
Proof.
  intros Hlen. unfold _safe_update_monitor_status, bind, Queue.full.
  unfold status_maxsize in *.
  case_bool_decide as Hfull; case_bool_decide as Heq; try lia.
  - destruct (status_update_queue s) as [|old rest] eqn:Hq; simpl in *; [lia|].
    unfold status_update_queue_put, Queue.put, Queue.full. simpl.
    rewrite bool_decide_eq_false_2 by (unfold status_maxsize; lia). done.
  - unfold status_update_queue_put, Queue.put, Queue.full.
    rewrite bool_decide_eq_false_2 by (unfold status_maxsize; lia). done.
Qed.

Lemma safe_update_status monitor_id status now s :
  length (status_update_queue s) ≤ status_maxsize →
  ∃ s', _safe_update_monitor_status monitor_id status now s = Done tt s' ∧
        length (status_update_queue s') ≤ status_maxsize ∧
        active_monitors s' = active_monitors s ∧
        monitor_data_queue s' = monitor_data_queue s ∧
        subscribed_outputs s' = subscribed_outputs s ∧
        socketio_connected s' = socketio_connected s ∧
        wire s' = wire s.
Proof.
  intros Hs. rewrite safe_update_done by done.
  eexists. split; [done|]. split; [|done].
  simpl. rewrite length_app. simpl.
  unfold status_maxsize in *. case_bool_decide.
  - destruct (status_update_queue s); simpl in *; lia.
  - lia.
Qed.

Lemma safe_update_within monitor_id status now s :
  within_capacity s →
  ∃ s', _safe_update_monitor_status monitor_id status now s = Done tt s' ∧
        within_capacity s' ∧
        active_monitors s' = active_monitors s ∧
        monitor_data_queue s' = monitor_data_queue s ∧
        subscribed_outputs s' = subscribed_outputs s ∧
        socketio_connected s' = socketio_connected s ∧
        wire s' = wire s.
Proof.
  intros [Hd Hs].
  destruct (safe_update_status monitor_id status now s Hs)
    as (s' & E & S & A & D & R).
  exists s'. repeat split; try done; try apply R. by rewrite D.
Qed.

Lemma notify_all_within status now s :
  within_capacity s →
  ∃ s', notify_all status now s = Done tt s' ∧ within_capacity s'.
Proof.
  intros HP. unfold notify_all. rewrite bind_gets.
  apply for_each_done_inv; [|done].
  intros x s0 H0.
  destruct (safe_update_within x status now s0 H0) as (s' & E & H' & _).
  by exists s'.
Qed.

Lemma mark_monitors_within name flag status now s :
  within_capacity s →
  ∃ s', mark_monitors name flag status now s = Done tt s' ∧
        within_capacity s' ∧
        monitor_data_queue s' = monitor_data_queue s ∧
        subscribed_outputs s' = subscribed_outputs s ∧
        socketio_connected s' = socketio_connected s ∧
        wire s' = wire s.
Proof.
  intros HP. unfold mark_monitors. rewrite bind_gets.
  apply (for_each_done_inv _ _
    (λ s', within_capacity s' ∧
           monitor_data_queue s' = monitor_data_queue s ∧
           subscribed_outputs s' = subscribed_outputs s ∧
           socketio_connected s' = socketio_connected s ∧
           wire s' = wire s)); [|done].
  intros p s0 (H0 & D0 & U0 & C0 & W0). rewrite bind_modify.
  set (s1 := set_active_monitors _ s0).
  destruct (safe_update_within p.1 status now s1)
    as (s' & E & H' & _ & D & U & C & W); [done|].
  exists s'. rewrite E, D, U, C, W. done.
Qed.

(** A [data_update] event that finds the data queue full changes nothing. *)
Lemma data_update_full data now s :
  length (monitor_data_queue s) = data_maxsize →
  data_update data now s = Done tt s.
Proof.
  intros Hlen. unfold data_update.
  destruct (ev_name data) as [name|]; [|done].
  destruct (ev_data data) as [raw|]; [|done].
  destruct (negb (truthy name)); [done|].
  rewrite bind_gets. unfold Queue.qsize. rewrite Hlen.
  by rewrite bool_decide_eq_true_2 by (unfold data_maxsize; lia).
Qed.

Lemma push_step_within e s :
  within_capacity s → within_capacity (final (push_step e s)).
Proof.
  intros HP. destruct e as [m st now|data now| |now|now]; simpl.
  - destruct (safe_update_within m st now s HP) as (s' & -> & H' & _). done.
  - unfold data_update.
    destruct (ev_name data) as [name|]; [|done].
    destruct (ev_data data) as [raw|]; [|done].
    destruct (negb (truthy name)); [done|].
    rewrite bind_gets. case_bool_decide; [done|].
    apply holding_within. rewrite bind_gets.
    destruct (monitors_of name s) as [|p ps]; [done|].
    apply for_each_final_inv; [|done]. intros x s0. apply data_put_final.
  - unfold connect. rewrite bind_modify.
    set (s1 := set_socketio_connected true s).
    assert (within_capacity s1) as H1 by done.
    pose proof (data_put_final
      (Item type_status_update None (Some "connected") None None) s1 H1) as H2.
    unfold bind. destruct (monitor_data_queue_put _ s1) as [[] s2|s2]; done.
  - unfold connect_error. rewrite bind_modify.
    destruct (notify_all_within "disconnected" now
                (set_socketio_connected false s)) as (s' & -> & H'); done.
  - unfold disconnect. rewrite bind_modify.
    destruct (notify_all_within "disconnected" now
                (set_socketio_connected false s)) as (s' & -> & H'); done.
Qed.

(** C1 (as the code has it).  From a state whose queues are within capacity,
    whatever pushes follow, with no draining in between, the data queue never
    holds more than 100 items and the status queue never more than 50.  In
    the state reached, a status push that finds its queue full removes the
    oldest status item and appends the new one; a [data_update] event that
    finds the data queue full is dropped and leaves every queue as it was. *)
Theorem queues_stay_within_capacity (es : list push) (s : NM) :
  within_capacity s →
  let s' := final (for_each es push_step s) in
  within_capacity s' ∧
  (∀ monitor_id status now,
     length (status_update_queue s') = status_maxsize →
     _safe_update_monitor_status monitor_id status now s' =
     Done tt (set_status_update_queue
                (tail (status_update_queue s')
                 ++ [status_item monitor_id status now]) s')) ∧
  (∀ data now,
     length (monitor_data_queue s') = data_maxsize →
     data_update data now s' = Done tt s').
Proof.
  intros HP s'.
  assert (within_capacity s') as H'.
  { apply for_each_final_inv; [|done]. intros e s0. apply push_step_within. }
  split; [done|]. split.
  - intros m st now Hfull. rewrite safe_update_done by apply H'.
    by rewrite bool_decide_eq_true_2.
  - intros data now. apply data_update_full.
Qed.

Lemma queues_stay_within_capacity_witness :
  within_capacity online_NM ∧
  within_capacity
    (final (for_each
              [PushConnect;
               PushData (DataEvent (Some "psf.out") (Some image_2x2)) 1;
               PushStatus "m1" "receiving" 2]
              push_step online_NM)).
Proof.
  assert (within_capacity online_NM) as H by (split; simpl; lia).
  split; [exact H|].
  exact (proj1 (queues_stay_within_capacity _ online_NM H)).
Defined.

(** C1, the claim as stated fails: a [data_update] for a monitored output
    that arrives at a full data queue leaves the queue as it was, the oldest
    item still at its head and the new sample nowhere in it. *)
Lemma data_update_at_capacity_drops_newest :
  length (monitor_data_queue full_NM) = data_maxsize ∧
  monitors_of "psf.out" full_NM = [("m1", psf_monitor)] ∧
  data_update (DataEvent (Some "psf.out") (Some image_2x2)) 7 full_NM
    = Done tt full_NM ∧
  head (monitor_data_queue full_NM) = Some oldest_item ∧
  data_item "m1" image_2x2 7 ∉ monitor_data_queue full_NM.
Proof.
  split; [reflexivity|]. split; [reflexivity|].
  split; [by apply data_update_full|]. split; [reflexivity|].
  change (monitor_data_queue full_NM)
    with (oldest_item :: replicate 99 (data_item "m1" image_2x2 2)).
  unfold oldest_item, data_item.
  intros [Heq|Hin]%elem_of_cons; [discriminate|].
  apply elem_of_replicate in Hin as [Heq _]. discriminate.
Qed.

(** ** Closing a monitor *)






(** The first close of the subscribed monitor sends its unsubscribe. *)
Example close_online_wire :
  wire (final (_close_monitor "m1" true 0 online_NM)) = [unsubscribe "psf.out"].
Proof. vm_compute. reflexivity. Qed.




(** C10.  On a data queue within its capacity, [_clear_queue_for_monitor]
    returns, and the queue it leaves is the original one without the items
    addressed to the monitor: every other item stays, in the same order; no
    other field changes. *)
Theorem clear_queue_for_monitor_keeps_others (monitor_id : string) (s : NM) :
  length (monitor_data_queue s) ≤ data_maxsize →
  _clear_queue_for_monitor monitor_id s =
  Done tt (set_monitor_data_queue
             (filter (λ it, i_monitor_id it ≠ Some monitor_id)
                     (monitor_data_queue s)) s).
Proof. apply clear_queue_for_monitor_done. Qed.

Lemma clear_queue_for_monitor_keeps_others_witness :
  _clear_queue_for_monitor "m1" backlog_NM =
  Done tt (set_monitor_data_queue
             [Item type_status_update None (Some "connected") None None;
              data_item "m2" image_2x2 2] backlog_NM).
Proof.
  rewrite (clear_queue_for_monitor_keeps_others "m1" backlog_NM)
    by (vm_compute; lia).
  reflexivity.
Defined.

(** ** Flow control and subscriptions *)


Lemma request_next_frame_emit s :
  socketio_connected s = true → subscribed_outputs s ≠ ∅ →
  _request_next_frame s =
  Done tt (set_wire (wire s ++ [newdata (elements (subscribed_outputs s))]) s).
Proof.
  intros Hc Hne. unfold _request_next_frame. rewrite bind_gets, Hc. simpl.
  rewrite bind_gets. by rewrite bool_decide_eq_false_2.
Qed.



Example request_next_frame_online :
  _request_next_frame online_NM =
  Done tt (set_wire [newdata ["psf.out"]] online_NM).
Proof. vm_compute. reflexivity. Qed.








(** ** Reconnection *)

(** C7 (as the code has it).  Entering the connected state re-issues no
    request: [_connect_socketio] emits at most [test_connection], the
    [connect] event sets the connected flag and emits at most [get_params],
    and both leave the subscribed set as it was.  The names are therefore
    still there for the next [_request_next_frame], which, once [connect]
    has returned, carries every name of the set held before reconnecting. *)
Theorem reconnect_issues_no_request (connect_ok : bool) (s : NM) :
  let s1 := final (_connect_socketio connect_ok s) in
  let s2 := final (connect s) in
  (subscribed_outputs s1 = subscribed_outputs s ∧
   wire s1 = wire s ++
     (if socketio_enabled s && connect_ok then [test_connection] else [])) ∧
  (subscribed_outputs s2 = subscribed_outputs s ∧
   socketio_connected s2 = true ∧
   wire s2 = wire s ++
     (if bool_decide (length (monitor_data_queue s) < data_maxsize)
      then [get_params] else [])) ∧
  (∀ s', connect s = Done tt s' → subscribed_outputs s ≠ ∅ →
     _request_next_frame s' =
     Done tt (set_wire (wire s' ++ [newdata (elements (subscribed_outputs s))]) s')).
Proof.
  cbv zeta. split; [|split].
  - unfold _connect_socketio. rewrite bind_gets.
    destruct (socketio_enabled s), connect_ok; simpl; by rewrite ?app_nil_r.
  - unfold connect. rewrite bind_modify. unfold bind, monitor_data_queue_put,
      Queue.put, Queue.full. simpl. unfold data_maxsize.
    case_bool_decide; case_bool_decide; try lia; simpl; by rewrite ?app_nil_r.
  - intros s' H Hne.
    assert (socketio_connected s' = true ∧
            subscribed_outputs s' = subscribed_outputs s) as [Hc Hs].
    { revert H. unfold connect. rewrite bind_modify.
      unfold bind, monitor_data_queue_put, Queue.put.
      destruct (Queue.full _ _); simpl; [done|]. by intros [= <-]. }
    rewrite <- Hs. apply request_next_frame_emit; [done|]. by rewrite Hs.
Qed.

Lemma reconnect_issues_no_request_witness :
  let s' := final (connect offline_NM) in
  connect offline_NM = Done tt s' ∧
  _request_next_frame s' =
  Done tt (set_wire (wire s' ++ [newdata ["psf.out"]]) s').
Proof.
  cbv zeta.
  assert (connect offline_NM = Done tt (final (connect offline_NM))) as H
    by (vm_compute; reflexivity).
  split; [exact H|].
  apply (proj2 (proj2 (reconnect_issues_no_request true offline_NM)) _ H).
  vm_compute. discriminate.
Defined.

(** C7, the claim as stated fails: a reconnect with ["psf.out"] in the
    subscribed set puts [test_connection] and [get_params] on the wire and
    nothing that names ["psf.out"]. *)
Lemma reconnect_without_resubscribe :
  let s := final (connect (final (_connect_socketio true offline_NM))) in
  socketio_connected offline_NM = false ∧
  socketio_connected s = true ∧
  "psf.out" ∈ subscribed_outputs s ∧
  wire s = [test_connection; get_params] ∧
  ¬ ∃ outputs, newdata outputs ∈ wire s.
Proof.
  cbv zeta.
  assert (wire (final (connect (final (_connect_socketio true offline_NM))))
          = [test_connection; get_params]) as Hw by (vm_compute; reflexivity).
  split; [reflexivity|]. split; [reflexivity|].
  split; [vm_compute; reflexivity|]. split; [exact Hw|].
  rewrite Hw. intros [outputs Hin].
  apply elem_of_cons in Hin as [?|Hin]; [discriminate|].
  apply list_elem_of_singleton in Hin. discriminate.
Qed.

(** ** Rendering and the consumer loop *)

Lemma interval_for_mono (n1 n2 : N) :
  (n1 ≤ n2)%N → (interval_for n1 <= interval_for n2)%Q.
Proof.
  intros Hle. unfold interval_for.
  repeat case_bool_decide; try lia; by apply Qle_bool_imp_le.
Qed.

(** The table at the sizes the source names. *)
Example interval_for_steps :
  interval_for (100 * 100) = (1 # 20)%Q ∧
  interval_for (200 * 60) = (1 # 10)%Q ∧
  interval_for (600 * 600) = (1 # 4)%Q ∧
  interval_for (2000 * 2000) = (1 # 2)%Q.
Proof. by vm_compute. Qed.

Section RenderFacts.
Variable plotter_ok : string → plot_method → list N → pyval → bool.

(** A successful render of a two-dimensional array leaves the monitor with
    the interval of the table. *)
Lemma render_2d_interval monitor_id raw now s s' height width :
  payload_shape raw = Some [height; width] →
  _process_and_plot_data_main_thread plotter_ok monitor_id raw now s
    = Done true s' →
  ∃ info, Dict.get monitor_id (active_monitors s') = Some info ∧
          min_update_interval info = interval_for (height * width)%N.
Proof.
  intros Hshape H. unfold _process_and_plot_data_main_thread in H.
  destruct (monitor_lock s) eqn:Hlock;
    [by rewrite bind_wait_held in H|rewrite bind_wait_free in H by done].
  rewrite bind_gets in H.
  destruct (Dict.get monitor_id (active_monitors s)) as [info|] eqn:Hget;
    [|done].
  cbv zeta in H. rewrite bind_gets in H.
  destruct (negb _); [done|]. rewrite bind_gets in H.
  destruct (negb _); [done|].
  destruct raw as [[data_value|] shape|]; simpl in Hshape; try done.
  destruct (to_array data_value) as [dims|] eqn:Harr; simpl in Hshape; [|done].
  injection Hshape as Hshape. rewrite Hshape in H.
  unfold bind, gets, when, ret, modify, alter_monitor, delete_item in H.
  destruct (placeholder_tag info) as [ph|];
    [destruct (truthy ph && does_item_exist ph s)|]; simpl in H;
    destruct (plotter_ok monitor_id plot_2d_image_clean _ _);
    simplify_eq; simpl; rewrite !dict_get_alter_eq, Hget; simpl;
    by eexists.
Qed.

(** C4.  Whenever two payloads whose arrays are two-dimensional, of shapes
    [h1 x w1] and [h2 x w2], are rendered successfully, each monitor is left
    with the interval the step table [interval_for] gives its element count,
    and if [h1 * w1 <= h2 * w2] the first interval is at most the second. *)
Theorem min_update_interval_nondecreasing
    (m1 m2 : string) (raw1 raw2 : raw_data) (t1 t2 : Q) (s1 s1' s2 s2' : NM)
    (h1 w1 h2 w2 : N) :
  payload_shape raw1 = Some [h1; w1] →
  payload_shape raw2 = Some [h2; w2] →
  _process_and_plot_data_main_thread plotter_ok m1 raw1 t1 s1 = Done true s1' →
  _process_and_plot_data_main_thread plotter_ok m2 raw2 t2 s2 = Done true s2' →
  ∃ i1 i2,
    Dict.get m1 (active_monitors s1') = Some i1 ∧
    Dict.get m2 (active_monitors s2') = Some i2 ∧
    min_update_interval i1 = interval_for (h1 * w1)%N ∧
    min_update_interval i2 = interval_for (h2 * w2)%N ∧
    ((h1 * w1 ≤ h2 * w2)%N →
     (min_update_interval i1 <= min_update_interval i2)%Q).
Proof.
  intros Hs1 Hs2 H1 H2.
  destruct (render_2d_interval m1 raw1 t1 s1 s1' h1 w1 Hs1 H1) as (i1 & G1 & I1).
  destruct (render_2d_interval m2 raw2 t2 s2 s2' h2 w2 Hs2 H2) as (i2 & G2 & I2).
  exists i1, i2. repeat split; try done.
  rewrite I1, I2. apply interval_for_mono.
Qed.

Lemma safe_update_lock monitor_id status now s s' :
  length (status_update_queue s) ≤ status_maxsize →
  _safe_update_monitor_status monitor_id status now s = Done tt s' →
  monitor_lock s' = monitor_lock s.
Proof.
  intros Hs E. rewrite safe_update_done in E by done. by injection E as <-.
Qed.

(** While a handler holds the lock the renderer waits for it. *)
Lemma render_held monitor_id raw now s :
  monitor_lock s = true →
  _process_and_plot_data_main_thread plotter_ok monitor_id raw now s = Blocked s.
Proof.
  intros H. unfold _process_and_plot_data_main_thread.
  by rewrite bind_wait_held.
Qed.

(** A call of the renderer that returned found the lock free. *)
Lemma render_done_lock_free monitor_id raw now s b s' :
  _process_and_plot_data_main_thread plotter_ok monitor_id raw now s
    = Done b s' →
  monitor_lock s = false.
Proof.
  unfold _process_and_plot_data_main_thread.
  destruct (monitor_lock s) eqn:Hlock; [|done].
  by rewrite bind_wait_held.
Qed.

(** With the lock free the renderer returns, and does not touch the
    queues. *)
Lemma render_done monitor_id raw now s :
  monitor_lock s = false →
  ∃ b s', _process_and_plot_data_main_thread plotter_ok monitor_id raw now s
            = Done b s' ∧
          monitor_data_queue s' = monitor_data_queue s ∧
          status_update_queue s' = status_update_queue s ∧
          monitor_lock s' = false.
Proof.
  intros Hlock. unfold _process_and_plot_data_main_thread.
  rewrite bind_wait_free by done. revert Hlock.
  unfold bind, gets, when, ret, modify, alter_monitor, del_monitor, delete_item.
  repeat (case_match; unfold modify in *; simplify_eq/=); by do 2 eexists.
Qed.

Lemma process_queue_item_done it now s :
  monitor_lock s = false →
  length (status_update_queue s) ≤ status_maxsize →
  ∃ b s', process_queue_item plotter_ok it now s = Done b s' ∧
          monitor_data_queue s' = monitor_data_queue s ∧
          length (status_update_queue s') ≤ status_maxsize ∧
          monitor_lock s' = false.
Proof.
  intros Hlock Hs. unfold process_queue_item.
  destruct (i_type it); [|by do 2 eexists].
  destruct (i_monitor_id it) as [monitor_id|]; [|by do 2 eexists].
  rewrite bind_gets.
  destruct (Dict.get monitor_id (active_monitors s)) as [info|];
    [|by do 2 eexists].
  cbv zeta. rewrite bind_gets.
  destruct (negb _); [do 2 eexists; split; [reflexivity|done]|].
  destruct (due now info); [|do 2 eexists; split; [reflexivity|done]].
  destruct (render_done monitor_id (item_raw it) now s Hlock)
    as (b & s1 & E & D & S & L).
  rewrite (bind_done _ _ _ _ _ E).
  destruct b; [|do 2 eexists; split; [reflexivity|by rewrite D, S]].
  unfold alter_monitor. rewrite bind_modify.
  set (s2 := set_active_monitors _ s1).
  destruct (safe_update_status monitor_id "receiving" now s2)
    as (s3 & E3 & H3 & _ & D3 & _); [by simpl; rewrite S|].
  rewrite (bind_done _ _ _ _ _ E3).
  assert (length (status_update_queue s2) ≤ status_maxsize) as H2
    by (by simpl; rewrite S).
  do 2 eexists; split; [reflexivity|]. rewrite D3.
  repeat split; try done.
  by rewrite (safe_update_lock _ _ _ _ _ H2 E3).
Qed.

(** [n] rounds of the bounded loop take the first [n] items, or all. *)
Lemma drain_data_queue_done n now s :
  monitor_lock s = false →
  length (status_update_queue s) ≤ status_maxsize →
  ∃ c s', drain_data_queue plotter_ok n now s = Done c s' ∧
          monitor_data_queue s' = drop n (monitor_data_queue s) ∧
          length (status_update_queue s') ≤ status_maxsize ∧
          monitor_lock s' = false.
Proof.
  revert s. induction n as [|n IH]; intros s Hlock Hs; simpl.
  - by do 2 eexists.
  - rewrite bind_gets.
    destruct (monitor_data_queue s) as [|it q'] eqn:Hq; simpl.
    + do 2 eexists. split; [reflexivity|]. by rewrite Hq.
    + rewrite bind_modify.
      destruct (process_queue_item_done it now (set_monitor_data_queue q' s))
        as (b & s1 & E & D & S & L); [done|done|].
      rewrite (bind_done _ _ _ _ _ E).
      destruct (IH s1 L S) as (c & s2 & E2 & D2 & S2 & L2).
      rewrite (bind_done _ _ _ _ _ E2).
      do 2 eexists. split; [reflexivity|]. by rewrite D2, D.
Qed.

Lemma render_pending_done monitor_id now s :
  monitor_lock s = false →
  length (status_update_queue s) ≤ status_maxsize →
  ∃ s', render_pending plotter_ok monitor_id now s = Done tt s' ∧
        monitor_data_queue s' = monitor_data_queue s ∧
        length (status_update_queue s') ≤ status_maxsize ∧
        monitor_lock s' = false.
Proof.
  intros Hlock Hs. unfold render_pending. rewrite bind_gets.
  destruct (Dict.get monitor_id (active_monitors s)) as [info|];
    [|by eexists].
  destruct (pending_data info) as [it|]; [|by eexists].
  destruct (due now info); [|by eexists].
  destruct (render_done monitor_id (item_raw it) now s Hlock)
    as (b & s1 & E & D & S & L).
  rewrite (bind_done _ _ _ _ _ E).
  destruct b; [|eexists; split; [reflexivity|by rewrite D, S]].
  unfold alter_monitor. rewrite bind_modify.
  set (s2 := set_active_monitors _ s1).
  destruct (safe_update_status monitor_id "receiving" now s2)
    as (s3 & E3 & H3 & _ & D3 & _); [by simpl; rewrite S|].
  assert (length (status_update_queue s2) ≤ status_maxsize) as H2
    by (by simpl; rewrite S).
  exists s3. rewrite E3, D3. repeat split; try done.
  by rewrite (safe_update_lock _ _ _ _ _ H2 E3).
Qed.

(** While a handler holds the lock the frame waits for it: nothing is
    taken from the queues and nothing is re-armed. *)
Lemma monitor_update_frame_held now s :
  monitor_lock s = true →
  _monitor_update_frame plotter_ok now s = Blocked s.
Proof.
  intros H. unfold _monitor_update_frame. by rewrite bind_wait_held.
Qed.

Lemma monitor_update_frame_done now s :
  monitor_lock s = false →
  ∃ r s', _monitor_update_frame plotter_ok now s = Done r s' ∧
          monitor_data_queue s' =
            drop max_items_per_frame (monitor_data_queue s).
Proof.
  intros Hlock. unfold _monitor_update_frame.
  rewrite bind_wait_free by done. rewrite bind_modify.
  set (s0 := set_status_update_queue _ s).
  assert (length (status_update_queue s0) ≤ status_maxsize) as H0.
  { subst s0. simpl. induction (status_update_queue s); simpl; [lia|done]. }
  destruct (drain_data_queue_done max_items_per_frame now s0 Hlock H0)
    as (c & s1 & E1 & D1 & S1 & L1).
  rewrite (bind_done _ _ _ _ _ E1), bind_gets.
  assert (∀ x sx,
            monitor_data_queue sx = monitor_data_queue s1 ∧
            length (status_update_queue sx) ≤ status_maxsize ∧
            monitor_lock sx = false →
            ∃ s', render_pending plotter_ok x now sx = Done tt s' ∧
                  (monitor_data_queue s' = monitor_data_queue s1 ∧
                   length (status_update_queue s') ≤ status_maxsize ∧
                   monitor_lock s' = false)) as Hbody.
  { intros x sx (Dx & Sx & Lx).
    destruct (render_pending_done x now sx Lx Sx) as (s' & E & D & S & L).
    exists s'. by rewrite E, D, Dx. }
  destruct (for_each_done_inv (Dict.keys (active_monitors s1)) _ _ Hbody s1)
    as (s2 & E2 & D2 & S2 & L2); [done|].
  rewrite (bind_done _ _ _ _ _ E2), !bind_gets.
  do 2 eexists. split; [reflexivity|]. by rewrite D2, D1.
Qed.

Lemma process_queue_item_not_due now s it monitor_id info :
  i_type it = type_data_update →
  i_monitor_id it = Some monitor_id →
  Dict.get monitor_id (active_monitors s) = Some info →
  window_id info ≠ "" →
  window_id info ∈ dpg_items s →
  due now info = false →
  process_queue_item plotter_ok it now s =
  Done false
    (set_active_monitors
       (Dict.alter (λ i, with_skipped_frames (S (skipped_frames i))
                           (with_pending_data (Some it) i))
                   monitor_id (active_monitors s)) s).
Proof.
  intros Hty Hid Hget Hw Hex Hdue.
  unfold process_queue_item. rewrite Hty, Hid, bind_gets, Hget.
  cbv zeta. rewrite bind_gets. unfold does_item_exist.
  rewrite (truthy_true _ Hw), bool_decide_eq_true_2 by done. simpl.
  rewrite Hdue. unfold alter_monitor. by rewrite bind_modify.
Qed.

Lemma drain_not_due n now s it q' monitor_id info :
  monitor_data_queue s = it :: q' →
  i_type it = type_data_update →
  i_monitor_id it = Some monitor_id →
  Dict.get monitor_id (active_monitors s) = Some info →
  window_id info ≠ "" →
  window_id info ∈ dpg_items s →
  due now info = false →
  drain_data_queue plotter_ok (S n) now s =
  drain_data_queue plotter_ok n now
    (set_active_monitors
       (Dict.alter (λ i, with_skipped_frames (S (skipped_frames i))
                           (with_pending_data (Some it) i))
                   monitor_id (active_monitors s))
       (set_monitor_data_queue q' s)).
Proof.
  intros Hq Hty Hid Hget Hw Hex Hdue. simpl.
  rewrite bind_gets, Hq. simpl. rewrite bind_modify.
  rewrite (bind_done _ _ _ _ _
    (process_queue_item_not_due now (set_monitor_data_queue q' s) it
       monitor_id info Hty Hid Hget Hw Hex Hdue)).
  simpl. apply bind_ret_r.
Qed.

Lemma process_queue_item_windowless now s it monitor_id info :
  i_type it = type_data_update →
  i_monitor_id it = Some monitor_id →
  Dict.get monitor_id (active_monitors s) = Some info →
  window_id info = "" ∨ window_id info ∉ dpg_items s →
  process_queue_item plotter_ok it now s =
  Done false
    (set_active_monitors (Dict.del monitor_id (active_monitors s)) s).
Proof.
  intros Hty Hid Hget Hwin.
  unfold process_queue_item. rewrite Hty, Hid, bind_gets, Hget.
  cbv zeta. rewrite bind_gets. unfold does_item_exist.
  assert (truthy (window_id info)
          && bool_decide (window_id info ∈ dpg_items s) = false) as ->.
  { destruct Hwin as [->|Hnot]; [done|].
    rewrite (bool_decide_eq_false_2 _ Hnot). apply andb_false_r. }
  simpl. unfold del_monitor. by rewrite bind_modify.
Qed.

Lemma drain_windowless n now s it q' monitor_id info :
  monitor_data_queue s = it :: q' →
  i_type it = type_data_update →
  i_monitor_id it = Some monitor_id →
  Dict.get monitor_id (active_monitors s) = Some info →
  window_id info = "" ∨ window_id info ∉ dpg_items s →
  drain_data_queue plotter_ok (S n) now s =
  drain_data_queue plotter_ok n now
    (set_active_monitors (Dict.del monitor_id (active_monitors s))
       (set_monitor_data_queue q' s)).
Proof.
  intros Hq Hty Hid Hget Hwin. simpl.
  rewrite bind_gets, Hq. simpl. rewrite bind_modify.
  rewrite (bind_done _ _ _ _ _
    (process_queue_item_windowless now (set_monitor_data_queue q' s) it
       monitor_id info Hty Hid Hget Hwin)).
  simpl. apply bind_ret_r.
Qed.

(** C8 (as the code has it).  An invocation of [_monitor_update_frame] that
    finds the monitor lock free returns and leaves the data queue without
    its first five items (without all of them when there were fewer): at
    most five are taken.  One that finds the lock held, by a [data_update]
    handler waiting for room in the data queue, waits in turn and takes
    nothing.  In the bounded loop, taking a [data_update] item whose monitor
    is in the table with its window still present, and which is not yet due,
    puts the item in the monitor's one pending slot, replacing what was
    there, adds one to its skipped-frame counter, keeps its last render time
    and interval, and goes on with the remaining rounds.  Taking one whose
    monitor is in the table but has no window any more, due or not, drops
    the item and removes the monitor from the table, which is otherwise
    unchanged, and goes on with the remaining rounds. *)
Theorem consumer_loop_batch_and_pending (now : Q) (s : NM) :
  (monitor_lock s = false →
   ∃ r s', _monitor_update_frame plotter_ok now s = Done r s' ∧
           monitor_data_queue s' =
             drop max_items_per_frame (monitor_data_queue s)) ∧
  (monitor_lock s = true →
   _monitor_update_frame plotter_ok now s = Blocked s) ∧
  (∀ n s0 it q' monitor_id info,
     monitor_data_queue s0 = it :: q' →
     i_type it = type_data_update →
     i_monitor_id it = Some monitor_id →
     Dict.get monitor_id (active_monitors s0) = Some info →
     window_id info ≠ "" →
     window_id info ∈ dpg_items s0 →
     due now info = false →
     ∃ s1 info1,
       drain_data_queue plotter_ok (S n) now s0 =
         drain_data_queue plotter_ok n now s1 ∧
       monitor_data_queue s1 = q' ∧
       Dict.get monitor_id (active_monitors s1) = Some info1 ∧
       pending_data info1 = Some it ∧
       skipped_frames info1 = S (skipped_frames info) ∧
       last_update info1 = last_update info ∧
       min_update_interval info1 = min_update_interval info) ∧
  (∀ n s0 it q' monitor_id info,
     monitor_data_queue s0 = it :: q' →
     i_type it = type_data_update →
     i_monitor_id it = Some monitor_id →
     Dict.get monitor_id (active_monitors s0) = Some info →
     window_id info = "" ∨ window_id info ∉ dpg_items s0 →
     ∃ s1,
       drain_data_queue plotter_ok (S n) now s0 =
         drain_data_queue plotter_ok n now s1 ∧
       s1 = set_active_monitors (Dict.del monitor_id (active_monitors s0))
              (set_monitor_data_queue q' s0) ∧
       monitor_data_queue s1 = q' ∧
       Dict.get monitor_id (active_monitors s1) = None ∧
       ∀ other, other ≠ monitor_id →
         Dict.get other (active_monitors s1) =
         Dict.get other (active_monitors s0)).
Proof.
  split; [apply monitor_update_frame_done|].
  split; [apply monitor_update_frame_held|].
  split.
  - intros n s0 it q' monitor_id info Hq Hty Hid Hget Hw Hex Hdue.
    eexists. eexists. split; [by eapply drain_not_due|].
    split; [done|]. simpl. rewrite dict_get_alter_eq, Hget. done.
  - intros n s0 it q' monitor_id info Hq Hty Hid Hget Hwin.
    eexists. split; [by eapply drain_windowless|].
    split; [done|]. split; [done|]. simpl. split; [apply dict_get_del|].
    intros other Hne. by apply dict_get_del_ne.
Qed.
End RenderFacts.

Lemma min_update_interval_nondecreasing_witness :
  ∃ i1 i2,
    Dict.get "m1"
      (active_monitors
         (final (_process_and_plot_data_main_thread always_plots "m1"
                   image_2x2 1 online_NM))) = Some i1 ∧
    Dict.get "m1"
      (active_monitors
         (final (_process_and_plot_data_main_thread always_plots "m1"
                   image_200x60 2 online_NM))) = Some i2 ∧
    min_update_interval i1 = interval_for (2 * 2)%N ∧
    min_update_interval i2 = interval_for (200 * 60)%N ∧
    ((2 * 2 ≤ 200 * 60)%N →
     (min_update_interval i1 <= min_update_interval i2)%Q).
Proof.
  apply (min_update_interval_nondecreasing always_plots "m1" "m1"
           image_2x2 image_200x60 1 2 online_NM _ online_NM _ 2 2 200 60).
  - vm_compute. reflexivity.
  - vm_compute. reflexivity.
  - vm_compute. reflexivity.
  - vm_compute. reflexivity.
Defined.

Lemma consumer_loop_batch_and_pending_witness :
  (∃ r s',
     _monitor_update_frame always_plots (21 # 20) early_NM = Done r s' ∧
     monitor_data_queue s' =
       drop max_items_per_frame (monitor_data_queue early_NM)) ∧
  _monitor_update_frame always_plots 3 jammed_NM = Blocked jammed_NM ∧
  (∃ s1 info1,
     drain_data_queue always_plots 5 (21 # 20) early_NM =
       drain_data_queue always_plots 4 (21 # 20) s1 ∧
     monitor_data_queue s1 = [data_item "m1" image_200x60 1] ∧
     Dict.get "m1" (active_monitors s1) = Some info1 ∧
     pending_data info1 = Some (data_item "m1" image_2x2 1) ∧
     skipped_frames info1 = 1 ∧
     last_update info1 = 1%Q ∧
     min_update_interval info1 = (1 # 10)%Q) ∧
  (∃ s1,
     drain_data_queue always_plots 5 0 windowless_NM =
       drain_data_queue always_plots 4 0 s1 ∧
     s1 = set_active_monitors (Dict.del "m1" (active_monitors windowless_NM))
            (set_monitor_data_queue [] windowless_NM) ∧
     monitor_data_queue s1 = [] ∧
     Dict.get "m1" (active_monitors s1) = None ∧
     ∀ other, other ≠ "m1" →
       Dict.get other (active_monitors s1) =
       Dict.get other (active_monitors windowless_NM)).
Proof.
  split.
  { apply (proj1 (consumer_loop_batch_and_pending always_plots (21 # 20)
                    early_NM)).
    reflexivity. }
  split.
  { apply (proj1 (proj2 (consumer_loop_batch_and_pending always_plots 3
                           jammed_NM))).
    vm_compute. reflexivity. }
  split.
  { apply (proj1 (proj2 (proj2 (consumer_loop_batch_and_pending always_plots
                                  (21 # 20) early_NM)))
             4 early_NM (data_item "m1" image_2x2 1) _ "m1"
             (with_last_update 1 psf_monitor)).
    - reflexivity.
    - reflexivity.
    - reflexivity.
    - reflexivity.
    - discriminate.
    - vm_compute. reflexivity.
    - vm_compute. reflexivity. }
  apply (proj2 (proj2 (proj2 (consumer_loop_batch_and_pending always_plots 0
                                windowless_NM)))
           4 windowless_NM (data_item "m1" image_2x2 0) [] "m1" psf_monitor).
  - reflexivity.
  - reflexivity.
  - reflexivity.
  - reflexivity.
  - right. vm_compute. discriminate.
Defined.

(** The whole frame on that state: both samples are taken, the later one is
    the one kept pending, two frames are counted as skipped. *)
Example frame_keeps_latest_pending :
  ∃ r s',
    _monitor_update_frame always_plots (21 # 20) early_NM = Done r s' ∧
    monitor_data_queue s' = [] ∧
    (pending_data <$> Dict.get "m1" (active_monitors s'))
      = Some (Some (data_item "m1" image_200x60 1)) ∧
    (skipped_frames <$> Dict.get "m1" (active_monitors s')) = Some 2.
Proof. do 2 eexists. vm_compute. done. Qed.

(** C8, the claim as stated fails: the monitor of the dequeued sample is in
    the table and not yet due, but its window is gone; the frame removes the
    monitor instead of storing the sample as pending. *)
Lemma not_due_item_without_window :
  monitor_data_queue windowless_NM = [data_item "m1" image_2x2 0] ∧
  Dict.get "m1" (active_monitors windowless_NM) = Some psf_monitor ∧
  due 0 psf_monitor = false ∧
  ∃ r s',
    _monitor_update_frame always_plots 0 windowless_NM = Done r s' ∧
    monitor_data_queue s' = [] ∧
    active_monitors s' = [].
Proof.
  split; [reflexivity|]. split; [reflexivity|]. split; [reflexivity|].
  do 2 eexists. vm_compute. done.
Qed.

(** ** Queue health *)

Lemma latest_for_cons monitor_id it q :
  latest_for monitor_id (it :: q) =
  match latest_for monitor_id q with
  | Some x => Some x
  | None => if decide (data_for monitor_id it) then Some it else None
  end.
Proof.
  unfold latest_for. rewrite filter_cons.
  destruct (decide (data_for monitor_id it)); [|by destruct (last _)].
  destruct (filter (data_for monitor_id) q) as [|y l] eqn:Hf; [done|].
  rewrite last_cons. by destruct (last (y :: l)).
Qed.

Lemma health_scan_temp q latest_items temp_items :
  (health_scan q latest_items temp_items).2 = temp_items ++ filter non_data q.
Proof.
  revert latest_items temp_items.
  induction q as [|it q IH]; intros latest_items temp_items; simpl.
  - by rewrite app_nil_r.
  - destruct (i_type it) eqn:Hty; rewrite IH.
    + rewrite filter_cons_False; [done|]. unfold non_data. congruence.
    + rewrite filter_cons_True; [|unfold non_data; congruence].
      by rewrite <- app_assoc.
Qed.

(** After the scan, [latest_items] maps a monitor id to its latest item. *)
Lemma health_scan_latest q latest_items temp_items monitor_id :
  Dict.get monitor_id (health_scan q latest_items temp_items).1 =
  match latest_for monitor_id q with
  | Some x => Some x
  | None => Dict.get monitor_id latest_items
  end.
Proof.
  revert latest_items temp_items.
  induction q as [|it q IH]; intros latest_items temp_items; simpl; [done|].
  rewrite latest_for_cons.
  destruct (i_type it) eqn:Hty; rewrite IH;
    destruct (latest_for monitor_id q); try done.
  - destruct (decide (i_monitor_id it = monitor_id)) as [<-|Hne].
    + rewrite decide_True by done. apply dict_get_set_eq.
    + rewrite decide_False by (intros [_ ?]; done).
      by apply dict_get_set_ne.
  - rewrite decide_False; [done|]. intros [? _]. congruence.
Qed.

Lemma health_scan_keyed q latest_items temp_items :
  NoDup (Dict.keys latest_items) → Forall keyed latest_items →
  NoDup (Dict.keys (health_scan q latest_items temp_items).1) ∧
  Forall keyed (health_scan q latest_items temp_items).1.
Proof.
  revert latest_items temp_items.
  induction q as [|it q IH]; intros latest_items temp_items Hnd Hk; simpl;
    [done|].
  destruct (i_type it) eqn:Hty; [|by apply IH].
  apply IH; [by apply dict_set_NoDup|]. by apply dict_set_Forall.
Qed.

Lemma health_scan_length q latest_items temp_items :
  length (health_scan q latest_items temp_items).1 +
  length (health_scan q latest_items temp_items).2 ≤
  length latest_items + length temp_items + length q.
Proof.
  revert latest_items temp_items.
  induction q as [|it q IH]; intros latest_items temp_items; simpl; [lia|].
  destruct (i_type it).
  - specialize (IH (Dict.set (i_monitor_id it) it latest_items) temp_items).
    pose proof (dict_set_length (i_monitor_id it) it latest_items). lia.
  - specialize (IH latest_items (temp_items ++ [it])).
    rewrite length_app in IH. simpl in IH. lia.
Qed.

Lemma keyed_values (d : list (option string * item)) :
  Forall keyed d →
  Forall is_data (Dict.values d) ∧ i_monitor_id <$> Dict.values d = Dict.keys d.
Proof.
  unfold Dict.values, Dict.keys.
  induction 1 as [|[k v] d [Hty Hid] Hd [IH1 IH2]]; simpl in *; [done|].
  split; [by constructor|]. f_equal; [exact Hid|exact IH2].
Qed.

Lemma non_data_filter_Forall (q : list item) :
  Forall (λ it, ¬ is_data it) (filter non_data q).
Proof.
  apply Forall_forall. intros it [Hn _]%list_elem_of_filter. exact Hn.
Qed.

Lemma queue_health_result s :
  50 < length (monitor_data_queue s) ≤ data_maxsize →
  _monitor_queue_health s =
  Done tt (set_monitor_data_queue
             (Dict.values (health_scan (monitor_data_queue s) [] []).1
              ++ filter non_data (monitor_data_queue s)) s).
Proof.
  intros [Hlo Hhi]. unfold _monitor_queue_health. rewrite bind_gets.
  unfold Queue.qsize. rewrite bool_decide_eq_true_2 by done.
  rewrite bind_modify. cbv zeta.
  rewrite put_all_done; simpl.
  - by rewrite health_scan_temp.
  - pose proof (health_scan_length (monitor_data_queue s) [] []) as Hl.
    rewrite length_app. unfold Dict.values. rewrite length_fmap.
    simpl in Hl. lia.
Qed.

(** C9.  When the health check finds more than 50 items in the data queue
    (a queue of at most 100), it returns, and in the queue it leaves: no two
    [data_update] items carry the same monitor id; the [data_update] items
    are exactly, for each monitor id, the one enqueued last for it; and the
    items that are not [data_update] are those of the original queue, in
    their order. *)
Theorem queue_health_keeps_latest_per_monitor (s : NM) :
  50 < length (monitor_data_queue s) ≤ data_maxsize →
  ∃ s', _monitor_queue_health s = Done tt s' ∧
        NoDup (i_monitor_id <$> filter is_data (monitor_data_queue s')) ∧
        (∀ monitor_id it,
           it ∈ monitor_data_queue s' ∧ data_for monitor_id it ↔
           latest_for monitor_id (monitor_data_queue s) = Some it) ∧
        filter non_data (monitor_data_queue s') =
          filter non_data (monitor_data_queue s).
Proof.
  intros Hlen. rewrite (queue_health_result s Hlen).
  eexists. split; [done|]. simpl.
  set (q := monitor_data_queue s).
  set (latest_items := (health_scan q [] []).1).
  destruct (health_scan_keyed q [] [] (NoDup_nil_2) (Forall_nil_2 _))
    as [Hnd Hk]. fold latest_items in Hnd, Hk.
  destruct (keyed_values latest_items Hk) as [Hdata Hids].
  assert (∀ monitor_id, Dict.get monitor_id latest_items = latest_for monitor_id q)
    as Hget.
  { intros m. unfold latest_items. rewrite health_scan_latest.
    by destruct (latest_for m q). }
  split; [|split].
  - rewrite filter_app, (filter_all _ _ Hdata).
    rewrite (filter_none is_data) by apply non_data_filter_Forall.
    by rewrite app_nil_r, Hids.
  - intros m it. split.
    + intros [[Hin|Hin]%elem_of_app [Hty Hid]].
      * apply list_elem_of_fmap in Hin as ([k v] & -> & Hin). simpl in *.
        rewrite <- Hget. apply dict_elem_get; [done|].
        rewrite Forall_forall in Hk. destruct (Hk _ Hin) as [_ Hkid].
        simpl in Hkid. congruence.
      * apply list_elem_of_filter in Hin as [Hn _]. done.
    + intros Hlast. split.
      * apply elem_of_app. left. apply (dict_get_values m).
        by rewrite Hget.
      * apply last_Some_elem_of in Hlast.
        by apply list_elem_of_filter in Hlast as [? _].
  - rewrite filter_app, (filter_none non_data).
    + simpl. apply filter_all. apply Forall_forall.
      by intros it [Hn _]%list_elem_of_filter.
    + eapply Forall_impl; [exact Hdata|]. intros it Hd Hn. by apply Hn.
Qed.

Lemma queue_health_keeps_latest_per_monitor_witness :
  50 < length (monitor_data_queue backlog_NM) ≤ data_maxsize ∧
  ∃ s', _monitor_queue_health backlog_NM = Done tt s' ∧
        NoDup (i_monitor_id <$> filter is_data (monitor_data_queue s')) ∧
        (∀ monitor_id it,
           it ∈ monitor_data_queue s' ∧ data_for monitor_id it ↔
           latest_for monitor_id (monitor_data_queue backlog_NM) = Some it) ∧
        filter non_data (monitor_data_queue s') =
          filter non_data (monitor_data_queue backlog_NM).
Proof.
  assert (50 < length (monitor_data_queue backlog_NM) ≤ data_maxsize) as H
    by (vm_compute; lia).
  split; [exact H|]. exact (queue_health_keeps_latest_per_monitor backlog_NM H).
Defined.

(** The compaction on the sample backlog of 62 items. *)
Example queue_health_backlog :
  _monitor_queue_health backlog_NM =
  Done tt (set_monitor_data_queue
             [data_item "m1" image_2x2 4; data_item "m2" image_2x2 2;
              Item type_status_update None (Some "connected") None None]
             backlog_NM).
Proof. vm_compute. reflexivity. Qed.


(** * Further properties of the code *)

(** * Further properties of the pipeline *)

(** ** Ingestion *)

Lemma set_monitor_data_queue_id s :
  set_monitor_data_queue (monitor_data_queue s) s = s.
Proof. by destruct s. Qed.

Lemma for_each_fmap {A B} (f : A → B) (xs : list A) (body : B → M unit) s :
  for_each (f <$> xs) body s = for_each xs (λ x, body (f x)) s.
Proof.
  revert s. induction xs as [|x xs IH]; intros s; simpl; [done|].
  unfold bind. destruct (body (f x) s); [apply IH|done].
Qed.

(** X1.  A [data_update] event without a name, with an empty name, without
    data, or for an output no monitor is bound to, changes nothing. *)
Theorem data_update_ignored (data : data_event) (now : Q) (s : NM) :
  ev_name data = None ∨ ev_name data = Some "" ∨ ev_data data = None ∨
  (∃ name, ev_name data = Some name ∧ monitors_of name s = []) →
  data_update data now s = Done tt s.
Proof.
  unfold data_update.
  intros [H|[H|[H|(name & H & Hm)]]]; rewrite H; try done.
  - by destruct (ev_data data).
  - by destruct (ev_name data).
  - destruct (ev_data data); [|done].
    destruct (negb (truthy name)); [done|].
    rewrite bind_gets. case_bool_decide; [done|].
    apply holding_done. by rewrite bind_gets, Hm.
Qed.

Lemma data_update_ignored_witness :
  data_update (DataEvent (Some "dm.out") (Some image_2x2)) 1 online_NM
  = Done tt online_NM.
Proof.
  apply data_update_ignored. right. right. right.
  exists "dm.out". split; reflexivity.
Defined.

(** X2.  When the data queue has room for them, a [data_update] for a
    non-empty name appends one item per monitor bound to that name, in the
    order of the monitor table, each carrying the payload; nothing else
    changes. *)
Theorem data_update_fan_out (name : string) (raw : raw_data) (now : Q) (s : NM) :
  name ≠ "" →
  length (monitor_data_queue s) + length (monitors_of name s) ≤ data_maxsize →
  data_update (DataEvent (Some name) (Some raw)) now s =
  Done tt (set_monitor_data_queue
             (monitor_data_queue s
              ++ ((λ p, data_item p.1 raw now) <$> monitors_of name s)) s).
Proof.
  intros Hname Hlen. unfold data_update. simpl.
  rewrite (truthy_true _ Hname). simpl. rewrite bind_gets.
  destruct (monitors_of name s) as [|p ps] eqn:Hm.
  - simpl. rewrite app_nil_r, set_monitor_data_queue_id.
    case_bool_decide; [done|]. apply holding_done. by rewrite bind_gets, Hm.
  - unfold Queue.qsize. simpl in Hlen.
    rewrite bool_decide_eq_false_2 by (unfold data_maxsize in *; lia).
    apply holding_done. rewrite bind_gets, Hm.
    rewrite <- (for_each_fmap (λ p, data_item p.1 raw now) (p :: ps)
                  monitor_data_queue_put).
    apply put_all_done. rewrite length_fmap. simpl. lia.
Qed.

Lemma data_update_fan_out_witness :
  data_update (DataEvent (Some "psf.out") (Some image_2x2)) 1 shared_NM =
  Done tt (set_monitor_data_queue
             [data_item "m1" image_2x2 1; data_item "m2" image_2x2 1] shared_NM).
Proof.
  rewrite (data_update_fan_out "psf.out" image_2x2 1 shared_NM).
  - reflexivity.
  - discriminate.
  - vm_compute. lia.
Defined.

(** A loop of status pushes that fit appends them in order. *)
Lemma notify_all_result status now s :
  length (status_update_queue s) + length (active_monitors s) ≤ status_maxsize →
  notify_all status now s =
  Done tt (set_status_update_queue
             (status_update_queue s
              ++ ((λ id, status_item id status now) <$> Dict.keys (active_monitors s)))
             s).
Proof.
  unfold notify_all. rewrite bind_gets. unfold Dict.keys.
  rewrite <- (length_fmap fst (active_monitors s)).
  generalize ((active_monitors s).*1). intros ids. revert s.
  induction ids as [|id ids IH]; intros s Hlen; simpl.
  - rewrite app_nil_r. by destruct s.
  - simpl in Hlen. rewrite (bind_done _ _ _ _ _
      (safe_update_done id status now s ltac:(lia))).
    rewrite bool_decide_eq_false_2 by lia.
    rewrite IH; simpl.
    + by rewrite <- app_assoc.
    + rewrite length_app. simpl. lia.
Qed.

(** X3.  A [disconnect] event (and a [connect_error], which runs the same
    code) only clears the connected flag and queues statuses: the subscribed
    set, the monitor table, the data queue and the wire are kept, and when
    the status queue has room it receives one ["disconnected"] item per open
    monitor, in table order. *)
Theorem disconnect_keeps_subscriptions (now : Q) (s : NM) :
  within_capacity s →
  ∃ s', disconnect now s = Done tt s' ∧
        connect_error now s = Done tt s' ∧
        socketio_connected s' = false ∧
        subscribed_outputs s' = subscribed_outputs s ∧
        active_monitors s' = active_monitors s ∧
        monitor_data_queue s' = monitor_data_queue s ∧
        wire s' = wire s ∧
        within_capacity s' ∧
        (length (status_update_queue s) + length (active_monitors s)
           ≤ status_maxsize →
         status_update_queue s' =
         status_update_queue s
         ++ ((λ id, status_item id "disconnected" now)
               <$> Dict.keys (active_monitors s))).
Proof.
  intros HP. unfold connect_error, disconnect. rewrite bind_modify.
  set (s0 := set_socketio_connected false s).
  assert (∃ s', notify_all "disconnected" now s0 = Done tt s' ∧
                (within_capacity s' ∧
                 socketio_connected s' = false ∧
                 subscribed_outputs s' = subscribed_outputs s ∧
                 active_monitors s' = active_monitors s ∧
                 monitor_data_queue s' = monitor_data_queue s ∧
                 wire s' = wire s)) as (s' & E & HP' & C & U & A & D & W).
  { unfold notify_all. rewrite bind_gets.
    apply for_each_done_inv; [|done].
    intros x sx (Hx & Cx & Ux & Ax & Dx & Wx).
    destruct (safe_update_within x "disconnected" now sx Hx)
      as (sy & Ey & Hy & Ay & Dy & Uy & Cy & Wy).
    exists sy. by rewrite Ey, Ay, Dy, Uy, Cy, Wy. }
  exists s'. repeat split; try done; try apply HP'.
  intros Hroom. rewrite (notify_all_result "disconnected" now s0 Hroom) in E.
  by injection E as <-.
Qed.

Lemma disconnect_keeps_subscriptions_witness :
  ∃ s', disconnect 9 shared_NM = Done tt s' ∧
        subscribed_outputs s' = subscribed_outputs shared_NM ∧
        status_update_queue s' =
          [status_item "m1" "disconnected" 9; status_item "m2" "disconnected" 9].
Proof.
  destruct (disconnect_keeps_subscriptions 9 shared_NM) as (s' & E & _ & _ & U & _ & _ & _ & _ & S).
  - split; vm_compute; lia.
  - exists s'. split; [exact E|]. split; [exact U|].
    apply S. vm_compute. lia.
Defined.

(** ** Subscriptions and closing *)











(** ** The consumer loop and the renderer *)

Section ConsumerFacts.
Variable plotter_ok : string → plot_method → list N → pyval → bool.

(** A [data_update] that comes to wait does so with the lock held. *)
Lemma data_update_blocked_lock data t s0 s1 :
  data_update data t s0 = Blocked s1 → monitor_lock s1 = true.
Proof.
  unfold data_update.
  destruct (ev_name data) as [name|]; [|done].
  destruct (ev_data data) as [raw|]; [|done].
  destruct (negb (truthy name)); [done|].
  rewrite bind_gets. case_bool_decide; [done|].
  unfold holding_monitor_lock.
  destruct (bind _ _ s0) as [a s'|s']; [done|]. by intros [= <-].
Qed.

(** X8.  An invocation of [_monitor_update_frame] that finds the monitor
    lock free returns and takes the first five items of the data queue, and
    the number of host frames it asks to wait before the next invocation
    depends only on how many items it left in the data queue: 1 if more
    than 10, 2 if between 1 and 10, 10 if none.  It starts the delayed frame
    request only if the transport is connected and fewer than 20 items are
    left.  An invocation that finds the lock held waits there: it takes
    nothing and arms no next frame.  That is so in the state a
    [data_update] leaves when it comes to wait for room in the data
    queue. *)
Theorem monitor_update_frame_rearm (now : Q) (s : NM) :
  (monitor_lock s = false →
   ∃ request next_frame s',
     _monitor_update_frame plotter_ok now s = Done (request, next_frame) s' ∧
     monitor_data_queue s' = drop 5 (monitor_data_queue s) ∧
     next_frame =
       (if bool_decide (10 < length (monitor_data_queue s')) then 1
        else if bool_decide (0 < length (monitor_data_queue s')) then 2
        else 10) ∧
     (request = true →
      socketio_connected s' = true ∧ length (monitor_data_queue s') < 20)) ∧
  (monitor_lock s = true →
   _monitor_update_frame plotter_ok now s = Blocked s) ∧
  (∀ data t s0,
     data_update data t s0 = Blocked s →
     _monitor_update_frame plotter_ok now s = Blocked s).
Proof.
  split; [|split; [apply monitor_update_frame_held|]].
  2:{ intros data t s0 E. apply monitor_update_frame_held.
      by eapply data_update_blocked_lock. }
  intros Hlock. unfold _monitor_update_frame.
  rewrite bind_wait_free by done. rewrite bind_modify.
  set (s0 := set_status_update_queue _ s).
  assert (length (status_update_queue s0) ≤ status_maxsize) as H0.
  { subst s0. simpl. induction (status_update_queue s); simpl; [lia|done]. }
  destruct (drain_data_queue_done plotter_ok max_items_per_frame now s0
              Hlock H0)
    as (c & s1 & E1 & D1 & S1 & L1).
  rewrite (bind_done _ _ _ _ _ E1), bind_gets.
  assert (∀ x sx,
            monitor_data_queue sx = monitor_data_queue s1 ∧
            length (status_update_queue sx) ≤ status_maxsize ∧
            monitor_lock sx = false →
            ∃ s', render_pending plotter_ok x now sx = Done tt s' ∧
                  (monitor_data_queue s' = monitor_data_queue s1 ∧
                   length (status_update_queue s') ≤ status_maxsize ∧
                   monitor_lock s' = false)) as Hbody.
  { intros x sx (Dx & Sx & Lx).
    destruct (render_pending_done plotter_ok x now sx Lx Sx)
      as (s' & E & D & S & L).
    exists s'. by rewrite E, D, Dx. }
  destruct (for_each_done_inv (Dict.keys (active_monitors s1)) _ _ Hbody s1)
    as (s2 & E2 & D2 & S2 & L2); [done|].
  rewrite (bind_done _ _ _ _ _ E2), !bind_gets. unfold ret, Queue.qsize.
  do 3 eexists. split; [reflexivity|].
  split; [by rewrite D2, D1|]. split; [done|].
  intros [[_ Hc]%andb_prop Hq%bool_decide_eq_true]%andb_prop. done.
Qed.

(** X9.  In the bounded loop, an item that is not a [data_update], or that
    names no monitor, or whose monitor is no longer in the table, is taken
    from the queue and dropped: no other part of the state changes. *)
Theorem drain_discards_stale_item (n : nat) (now : Q) (s : NM)
    (it : item) (q' : list item) :
  monitor_data_queue s = it :: q' →
  i_type it ≠ type_data_update ∨
  (∀ monitor_id, i_monitor_id it = Some monitor_id →
                 Dict.get monitor_id (active_monitors s) = None) →
  drain_data_queue plotter_ok (S n) now s =
  drain_data_queue plotter_ok n now (set_monitor_data_queue q' s).
Proof.
  intros Hq Hstale. simpl. rewrite bind_gets, Hq. simpl. rewrite bind_modify.
  assert (process_queue_item plotter_ok it now (set_monitor_data_queue q' s)
          = Done false (set_monitor_data_queue q' s)) as E.
  { unfold process_queue_item.
    destruct (i_type it) eqn:Hty; [|done].
    destruct Hstale as [?|Hstale]; [done|].
    destruct (i_monitor_id it) as [m|]; [|done].
    rewrite bind_gets. simpl. by rewrite (Hstale m). }
  rewrite (bind_done _ _ _ _ _ E). simpl. apply bind_ret_r.
Qed.
End ConsumerFacts.

Lemma monitor_update_frame_rearm_witness :
  (∃ request next_frame s',
     _monitor_update_frame always_plots 5 backlog_NM
       = Done (request, next_frame) s' ∧
     length (monitor_data_queue s') = 57 ∧ next_frame = 1) ∧
  data_update (DataEvent (Some "psf.out") (Some image_2x2)) 2 crowded_NM
    = Blocked jammed_NM ∧
  length (monitor_data_queue jammed_NM) = 100 ∧
  _monitor_update_frame always_plots 3 jammed_NM = Blocked jammed_NM.
Proof.
  assert (data_update (DataEvent (Some "psf.out") (Some image_2x2)) 2
            crowded_NM = Blocked jammed_NM) as Hwait
    by (vm_compute; reflexivity).
  split.
  { destruct (proj1 (monitor_update_frame_rearm always_plots 5 backlog_NM))
      as (request & next_frame & s' & E & D & N & _); [reflexivity|].
    exists request, next_frame, s'. split; [exact E|].
    rewrite N, D. split; vm_compute; reflexivity. }
  split; [exact Hwait|]. split; [vm_compute; reflexivity|].
  exact (proj2 (proj2 (monitor_update_frame_rearm always_plots 3 jammed_NM))
           _ _ _ Hwait).
Defined.

Lemma drain_discards_stale_item_witness :
  drain_data_queue always_plots 5 1
    (set_monitor_data_queue [data_item "gone" image_2x2 0] online_NM) =
  drain_data_queue always_plots 4 1 (set_monitor_data_queue [] online_NM).
Proof.
  apply (drain_discards_stale_item always_plots 4 1
           (set_monitor_data_queue [data_item "gone" image_2x2 0] online_NM)
           (data_item "gone" image_2x2 0) []).
  - reflexivity.
  - right. intros m [= <-]. reflexivity.
Defined.


Section RendererFacts.
Variable plotter_ok : string → plot_method → list N → pyval → bool.

(** The renderer writes the monitor table and the DearPyGui items only,
    and in the table only the entry of its own monitor. *)
Lemma render_frame monitor_id raw now s :
  monitor_lock s = false →
  ∃ b s', _process_and_plot_data_main_thread plotter_ok monitor_id raw now s
            = Done b s' ∧
          monitor_data_queue s' = monitor_data_queue s ∧
          status_update_queue s' = status_update_queue s ∧
          subscribed_outputs s' = subscribed_outputs s ∧
          socketio_connected s' = socketio_connected s ∧
          wire s' = wire s ∧
          ∀ other, other ≠ monitor_id →
                   Dict.get other (active_monitors s') =
                   Dict.get other (active_monitors s).
Proof.
  intros Hlock. unfold _process_and_plot_data_main_thread.
  rewrite bind_wait_free by done. clear Hlock.
  unfold bind, gets, when, ret, modify, alter_monitor, del_monitor,
    delete_item.
  repeat (case_match; unfold modify in *; simplify_eq/=);
    do 2 eexists; (split; [reflexivity|]); simpl;
    repeat split; try done; intros other Hne;
    by rewrite ?dict_get_alter_ne, ?dict_get_del_ne by done.
Qed.

(** The record the renderer leaves for its monitor. *)
Lemma render_own_entry monitor_id raw now s b s' :
  _process_and_plot_data_main_thread plotter_ok monitor_id raw now s
    = Done b s' →
  match Dict.get monitor_id (active_monitors s') with
  | None => b = false
  | Some info' =>
      ∃ info, Dict.get monitor_id (active_monitors s) = Some info ∧
        pending_data info' = pending_data info ∧
        skipped_frames info' = skipped_frames info ∧
        subscribed info' = subscribed info ∧
        server_output_name info' = server_output_name info ∧
        window_id info' = window_id info ∧
        (if b then update_count info' = S (update_count info) ∧
                   last_update info' = now ∧ dpg_plotter info' = true
         else update_count info' = update_count info ∧
              last_update info' = last_update info) ∧
        ((∀ height width, payload_shape raw ≠ Some [height; width]) →
         min_update_interval info' = min_update_interval info)
  end.
Proof.
  intros H.
  pose (P := λ (b : bool) (s' : NM),
    match Dict.get monitor_id (active_monitors s') with
    | None => b = false
    | Some info' =>
        ∃ info, Dict.get monitor_id (active_monitors s) = Some info ∧
          pending_data info' = pending_data info ∧
          skipped_frames info' = skipped_frames info ∧
          subscribed info' = subscribed info ∧
          server_output_name info' = server_output_name info ∧
          window_id info' = window_id info ∧
          (if b then update_count info' = S (update_count info) ∧
                     last_update info' = now ∧ dpg_plotter info' = true
           else update_count info' = update_count info ∧
                last_update info' = last_update info) ∧
          ((∀ height width, payload_shape raw ≠ Some [height; width]) →
           min_update_interval info' = min_update_interval info)
    end).
  change (P b s'). revert H.
  unfold _process_and_plot_data_main_thread.
  destruct (monitor_lock s) eqn:Hlock;
    [by rewrite bind_wait_held|rewrite bind_wait_free by done].
  clear Hlock.
  unfold bind, gets, when, ret, modify, alter_monitor, del_monitor,
    delete_item.
  intros H.
  repeat (case_match; unfold modify in *; simplify_eq/=);
    subst P; simpl;
    rewrite ?dict_get_alter_eq, ?dict_get_del;
    repeat match goal with
           | E : Dict.get monitor_id _ = _ |- _ => rewrite E
           end; simpl; try done;
    (eexists; split; [reflexivity|]); simpl; repeat split; try done;
    intros Hs; exfalso;
    repeat match goal with
           | E : to_array _ = _ |- _ => rewrite E in Hs
           | E : reshape _ _ = _ |- _ => simpl in Hs; rewrite E in Hs
           end;
    by eapply Hs.
Qed.

(** X10.  A call of the renderer that finds the monitor lock free returns
    and is confined to its monitor: the two queues, the subscribed set, the
    connection flag and the wire are left as they were, and so is the table
    entry of every other monitor.  A call that finds the lock held, by a
    [data_update] handler waiting for room in the data queue, waits and
    changes nothing. *)
Theorem render_touches_only_own_monitor
    (monitor_id : string) (raw : raw_data) (now : Q) (s : NM) :
  (monitor_lock s = false →
   ∃ b s', _process_and_plot_data_main_thread plotter_ok monitor_id raw now s
             = Done b s' ∧
           monitor_data_queue s' = monitor_data_queue s ∧
           status_update_queue s' = status_update_queue s ∧
           subscribed_outputs s' = subscribed_outputs s ∧
           socketio_connected s' = socketio_connected s ∧
           wire s' = wire s ∧
           ∀ other, other ≠ monitor_id →
                    Dict.get other (active_monitors s') =
                    Dict.get other (active_monitors s)) ∧
  (monitor_lock s = true →
   _process_and_plot_data_main_thread plotter_ok monitor_id raw now s
     = Blocked s) ∧
  (∀ data t s0,
     data_update data t s0 = Blocked s →
     _process_and_plot_data_main_thread plotter_ok monitor_id raw now s
       = Blocked s).
Proof.
  split; [apply render_frame|]. split; [apply render_held|].
  intros data t s0 E. apply render_held. by eapply data_update_blocked_lock.
Qed.

(** X11.  A render that reports success leaves its monitor in the table
    with the update counter one higher, the last update set to the clock
    reading, a plotter in place, and the pending sample and skipped-frame
    counter untouched. *)
Theorem render_success_stamps_monitor
    (monitor_id : string) (raw : raw_data) (now : Q) (s s' : NM) :
  _process_and_plot_data_main_thread plotter_ok monitor_id raw now s
    = Done true s' →
  ∃ info info',
    Dict.get monitor_id (active_monitors s) = Some info ∧
    Dict.get monitor_id (active_monitors s') = Some info' ∧
    update_count info' = S (update_count info) ∧
    last_update info' = now ∧
    dpg_plotter info' = true ∧
    pending_data info' = pending_data info ∧
    skipped_frames info' = skipped_frames info.
Proof.
  intros H. pose proof (render_own_entry monitor_id raw now s true s' H) as Hown.
  destruct (Dict.get monitor_id (active_monitors s')) as [info'|]; [|done].
  destruct Hown as (info & G & P & K & _ & _ & _ & (C & L & R) & _).
  by exists info, info'.
Qed.

(** X12.  A render that reports failure never counts as an update: if the
    monitor is still in the table afterwards, its update counter, last
    update time, pending sample and skipped-frame counter are unchanged. *)
Theorem render_failure_keeps_counters
    (monitor_id : string) (raw : raw_data) (now : Q) (s s' : NM)
    (info' : monitor_info) :
  _process_and_plot_data_main_thread plotter_ok monitor_id raw now s
    = Done false s' →
  Dict.get monitor_id (active_monitors s') = Some info' →
  ∃ info,
    Dict.get monitor_id (active_monitors s) = Some info ∧
    update_count info' = update_count info ∧
    last_update info' = last_update info ∧
    pending_data info' = pending_data info ∧
    skipped_frames info' = skipped_frames info.
Proof.
  intros H G'.
  pose proof (render_own_entry monitor_id raw now s false s' H) as Hown.
  rewrite G' in Hown.
  destruct Hown as (info & G & P & K & _ & _ & _ & (C & L) & _).
  by exists info.
Qed.

(** X13.  Only two-dimensional arrays retune the throttle: whatever the
    outcome of a render, if the payload does not convert to a
    two-dimensional array the monitor keeps its [min_update_interval]. *)
Theorem render_keeps_interval_unless_2d
    (monitor_id : string) (raw : raw_data) (now : Q) (s s' : NM) (b : bool)
    (info' : monitor_info) :
  _process_and_plot_data_main_thread plotter_ok monitor_id raw now s
    = Done b s' →
  (∀ height width, payload_shape raw ≠ Some [height; width]) →
  Dict.get monitor_id (active_monitors s') = Some info' →
  ∃ info,
    Dict.get monitor_id (active_monitors s) = Some info ∧
    min_update_interval info' = min_update_interval info.
Proof.
  intros H Hshape G'.
  pose proof (render_own_entry monitor_id raw now s b s' H) as Hown.
  rewrite G' in Hown.
  destruct Hown as (info & G & _ & _ & _ & _ & _ & _ & I).
  exists info. split; [done|]. by apply I.
Qed.

(** X14.  In the bounded loop, a [data_update] item whose monitor is in the
    table with its window present and is due is handed to the renderer.  If
    the render succeeds the item counts as processed, the monitor's last
    update time is the clock reading of the frame, and a ["receiving"]
    status for the monitor is the newest item of the status queue; if it
    fails, the state is the one the renderer left. *)
Theorem process_queue_item_due
    (it : item) (now : Q) (s s1 : NM) (monitor_id : string)
    (info : monitor_info) (b : bool) :
  i_type it = type_data_update →
  i_monitor_id it = Some monitor_id →
  Dict.get monitor_id (active_monitors s) = Some info →
  window_id info ≠ "" →
  window_id info ∈ dpg_items s →
  due now info = true →
  length (status_update_queue s) ≤ status_maxsize →
  _process_and_plot_data_main_thread plotter_ok monitor_id (item_raw it) now s
    = Done b s1 →
  ∃ s2, process_queue_item plotter_ok it now s = Done b s2 ∧
        monitor_data_queue s2 = monitor_data_queue s ∧
        (b = false → s2 = s1) ∧
        (b = true →
         (last_update <$> Dict.get monitor_id (active_monitors s2)) = Some now ∧
         last (status_update_queue s2)
           = Some (status_item monitor_id "receiving" now)).
Proof.
  intros Hty Hid Hget Hw Hex Hdue Hs E.
  destruct (render_frame monitor_id (item_raw it) now s)
    as (b' & s1' & E' & D & S & _);
    [by eapply render_done_lock_free|].
  rewrite E in E'. injection E' as <- <-.
  unfold process_queue_item. rewrite Hty, Hid, bind_gets, Hget.
  cbv zeta. rewrite bind_gets. unfold does_item_exist.
  rewrite (truthy_true _ Hw), bool_decide_eq_true_2 by done. simpl.
  rewrite Hdue, (bind_done _ _ _ _ _ E).
  destruct b.
  - pose proof (render_own_entry monitor_id _ now s true s1 E) as Hown.
    destruct (Dict.get monitor_id (active_monitors s1)) as [i1|] eqn:G1;
      [|done].
    unfold alter_monitor. rewrite bind_modify.
    set (s2 := set_active_monitors _ s1).
    rewrite (bind_done _ _ _ _ _
      (safe_update_done monitor_id "receiving" now s2
         ltac:(by simpl; rewrite S))).
    eexists. split; [reflexivity|]. simpl.
    split; [done|]. split; [done|]. intros _. split.
    + by rewrite dict_get_alter_eq, G1.
    + by rewrite last_snoc.
  - exists s1. by repeat split.
Qed.
End RendererFacts.

Lemma render_touches_only_own_monitor_witness :
  (∃ b s', _process_and_plot_data_main_thread always_plots "m1" image_2x2 1
             shared_NM = Done b s' ∧
           monitor_data_queue s' = monitor_data_queue shared_NM ∧
           status_update_queue s' = status_update_queue shared_NM ∧
           subscribed_outputs s' = subscribed_outputs shared_NM ∧
           socketio_connected s' = socketio_connected shared_NM ∧
           wire s' = wire shared_NM ∧
           ∀ other, other ≠ "m1" →
                    Dict.get other (active_monitors s') =
                    Dict.get other (active_monitors shared_NM)) ∧
  _process_and_plot_data_main_thread always_plots "m1" image_2x2 3 jammed_NM
    = Blocked jammed_NM.
Proof.
  split.
  - apply (proj1 (render_touches_only_own_monitor always_plots "m1" image_2x2
                    1 shared_NM)).
    reflexivity.
  - apply (proj2 (proj2 (render_touches_only_own_monitor always_plots "m1"
                           image_2x2 3 jammed_NM))
             (DataEvent (Some "psf.out") (Some image_2x2)) 2%Q crowded_NM).
    vm_compute. reflexivity.
Defined.

Lemma render_success_stamps_monitor_witness :
  ∃ info info',
    Dict.get "m1" (active_monitors online_NM) = Some info ∧
    Dict.get "m1"
      (active_monitors
         (final (_process_and_plot_data_main_thread always_plots "m1"
                   image_2x2 7 online_NM))) = Some info' ∧
    update_count info' = S (update_count info) ∧
    last_update info' = 7%Q ∧
    dpg_plotter info' = true ∧
    pending_data info' = pending_data info ∧
    skipped_frames info' = skipped_frames info.
Proof.
  apply (render_success_stamps_monitor always_plots "m1" image_2x2 7 online_NM).
  vm_compute. reflexivity.
Defined.

Lemma render_failure_keeps_counters_witness :
  ∃ info,
    Dict.get "m1" (active_monitors online_NM) = Some info ∧
    update_count (with_placeholder_tag None psf_monitor) = update_count info ∧
    last_update (with_placeholder_tag None psf_monitor) = last_update info ∧
    pending_data (with_placeholder_tag None psf_monitor) = pending_data info ∧
    skipped_frames (with_placeholder_tag None psf_monitor) = skipped_frames info.
Proof.
  apply (render_failure_keeps_counters always_plots "m1" RawOther 7 online_NM
           (final (_process_and_plot_data_main_thread always_plots "m1"
                     RawOther 7 online_NM))).
  - vm_compute. reflexivity.
  - vm_compute. reflexivity.
Defined.

(** A vector of two samples. *)
Lemma render_keeps_interval_unless_2d_witness :
  ∃ info,
    Dict.get "m1" (active_monitors online_NM) = Some info ∧
    (1 # 10)%Q = min_update_interval info.
Proof.
  apply (render_keeps_interval_unless_2d always_plots "m1"
           (RawDict (Some (PyList [PyNum 1; PyNum 2])) None) 7 online_NM
           (final (_process_and_plot_data_main_thread always_plots "m1"
                     (RawDict (Some (PyList [PyNum 1; PyNum 2])) None) 7
                     online_NM))
           true
           (with_update_count 1
              (with_last_update 7
                 (with_dpg_plotter true
                    (with_placeholder_tag None psf_monitor))))).
  - vm_compute. reflexivity.
  - intros height width. vm_compute. discriminate.
  - vm_compute. reflexivity.
Defined.

Lemma process_queue_item_due_witness :
  ∃ s2, process_queue_item always_plots (data_item "m1" image_2x2 0) 1 online_NM
          = Done true s2 ∧
        monitor_data_queue s2 = monitor_data_queue online_NM ∧
        (true = false →
         s2 = final (_process_and_plot_data_main_thread always_plots "m1"
                       image_2x2 1 online_NM)) ∧
        (true = true →
         (last_update <$> Dict.get "m1" (active_monitors s2)) = Some 1%Q ∧
         last (status_update_queue s2) = Some (status_item "m1" "receiving" 1)).
Proof.
  apply (process_queue_item_due always_plots (data_item "m1" image_2x2 0) 1
           online_NM _ "m1" psf_monitor true).
  - reflexivity.
  - reflexivity.
  - reflexivity.
  - discriminate.
  - vm_compute. reflexivity.
  - vm_compute. reflexivity.
  - vm_compute. lia.
  - vm_compute. reflexivity.
Defined.

(** ** Queue health, again *)

(** X15.  On a data queue within its capacity the health check returns and
    never lengthens the queue; when it finds 50 items or fewer it changes
    nothing at all. *)
Theorem queue_health_never_grows (s : NM) :
  length (monitor_data_queue s) ≤ data_maxsize →
  ∃ s', _monitor_queue_health s = Done tt s' ∧
        length (monitor_data_queue s') ≤ length (monitor_data_queue s) ∧
        (length (monitor_data_queue s) ≤ 50 → s' = s).
Proof.
  intros Hcap.
  destruct (decide (50 < length (monitor_data_queue s))) as [Hbig|Hsmall].
  - rewrite queue_health_result by done. eexists. split; [done|].
    split; [|lia]. simpl.
    pose proof (health_scan_length (monitor_data_queue s) [] []) as Hl.
    rewrite health_scan_temp in Hl. simpl in Hl.
    rewrite length_app. unfold Dict.values. rewrite length_fmap. lia.
  - unfold _monitor_queue_health. rewrite bind_gets. unfold Queue.qsize.
    rewrite bool_decide_eq_false_2 by done. by exists s.
Qed.

Lemma queue_health_never_grows_witness :
  ∃ s', _monitor_queue_health shared_NM = Done tt s' ∧
        length (monitor_data_queue s') ≤ length (monitor_data_queue shared_NM) ∧
        (length (monitor_data_queue shared_NM) ≤ 50 → s' = shared_NM).
Proof.
  apply queue_health_never_grows. vm_compute. lia.
Defined.


(** ** Names *)

Lemma truthy_false_iff name : truthy name = false ↔ name = "".
Proof.
  unfold truthy. rewrite negb_false_iff. apply bool_decide_eq_true.
Qed.

Lemma truthy_true_iff name : truthy name = true ↔ name ≠ "".
Proof.
  unfold truthy. rewrite negb_true_iff. apply bool_decide_eq_false.
Qed.

Lemma lower_truthy name : truthy name = true → truthy (lower name) = true.
Proof. by destruct name. Qed.

Lemma get_truthy_Some k d v :
  get_truthy k d = Some v → Dict.get k d = Some v ∧ truthy v = true.
Proof.
  unfold get_truthy. destruct (Dict.get k d) as [v'|]; [|done].
  destruct (truthy v') eqn:Ht; [|done]. by intros [= <-].
Qed.

Lemma get_truthy_set k v d :
  truthy v = true → get_truthy k (Dict.set k v d) = Some v.
Proof. intros Ht. unfold get_truthy. by rewrite dict_get_set_eq, Ht. Qed.

Lemma resolved_name_truthy node_uuid e :
  truthy (resolved_name node_uuid e) = true.
Proof.
  unfold resolved_name.
  destruct (get_truthy node_uuid _) as [sn|] eqn:E1.
  { by apply get_truthy_Some in E1 as [_ ?]. }
  destruct (get_truthy _ type_to_name) as [sn|] eqn:E2.
  { by apply get_truthy_Some in E2 as [_ ?]. }
  destruct (truthy (default "" _)) eqn:E3; [by apply lower_truthy|done].
Qed.

(** What [_get_server_output_name] returns and what it leaves behind. *)
Lemma get_server_output_name_eq node_uuid output_name e :
  _get_server_output_name node_uuid output_name e =
  (if truthy output_name
   then resolved_name node_uuid e +:+ "." +:+ output_name
   else "unknown.output",
   match get_truthy node_uuid (uuid_to_server_name e) with
   | Some _ => e
   | None =>
       set_uuid_to_server_name
         (Dict.set node_uuid (resolved_name node_uuid e)
            (uuid_to_server_name e)) e
   end).
Proof.
  pose proof (resolved_name_truthy node_uuid e) as Ht.
  unfold _get_server_output_name, resolved_name in *.
  destruct (get_truthy node_uuid _) as [sn|] eqn:E1.
  - rewrite Ht. by destruct (truthy output_name).
  - cbv zeta in *. rewrite Ht. by destruct (truthy output_name).
Qed.

(** X16.  [_get_server_output_name] always answers, also for a node that
    is not in the graph or has no type: with [<server>.<port>], the server
    name never empty, when the port has a name, and with [unknown.output]
    when it has none, even if the server name is known.  The server name is
    the one stored for the node afterwards; the names stored for other nodes
    and the graph are as they were. *)
Theorem server_output_name_format (node_uuid output_name : string) (e : Editor) :
  ∃ server_name,
    server_name ≠ "" ∧
    (_get_server_output_name node_uuid output_name e).1 =
      (if bool_decide (output_name = "") then "unknown.output"
       else server_name +:+ "." +:+ output_name) ∧
    Dict.get node_uuid
      (uuid_to_server_name (_get_server_output_name node_uuid output_name e).2) =
      Some server_name ∧
    (∀ other, other ≠ node_uuid →
       Dict.get other
         (uuid_to_server_name (_get_server_output_name node_uuid output_name e).2) =
       Dict.get other (uuid_to_server_name e)) ∧
    graph (_get_server_output_name node_uuid output_name e).2 = graph e.
Proof.
  exists (resolved_name node_uuid e).
  rewrite get_server_output_name_eq. simpl.
  split; [apply truthy_true_iff, resolved_name_truthy|].
  split. { unfold truthy. by case_bool_decide. }
  destruct (get_truthy node_uuid _) as [sn|] eqn:E1; simpl.
  - split; [|done]. unfold resolved_name. rewrite E1.
    by apply get_truthy_Some in E1 as [? _].
  - split; [apply dict_get_set_eq|]. split; [|done].
    intros other Hne. by apply dict_get_set_ne.
Qed.

(** X17.  The answer of [_get_server_output_name] is remembered: asked again
    for the same node, with the same port or another one, it uses the same
    server name and changes nothing any more. *)
Theorem server_output_name_memo (node_uuid output_name other_output : string)
    (e : Editor) :
  let e' := (_get_server_output_name node_uuid output_name e).2 in
  (_get_server_output_name node_uuid other_output e').2 = e' ∧
  _get_server_output_name node_uuid output_name e' =
    _get_server_output_name node_uuid output_name e.
Proof.
  cbv zeta. rewrite !get_server_output_name_eq. simpl.
  pose proof (resolved_name_truthy node_uuid e) as Ht.
  destruct (get_truthy node_uuid (uuid_to_server_name e)) as [sn|] eqn:E1.
  - by rewrite E1.
  - simpl. rewrite get_truthy_set by done. split; [done|].
    unfold resolved_name at 1. simpl. by rewrite get_truthy_set by done.
Qed.

(** ** The name mapping *)

Lemma dict_get_not_in {V} (k : string) (d : list (string * V)) :
  k ∉ Dict.keys d → Dict.get k d = None.
Proof.
  unfold Dict.keys. induction d as [|[k' v] d IH]; simpl; [done|].
  rewrite not_elem_of_cons. intros [Hne Hnin].
  destruct (decide (k' = k)); [congruence|by apply IH].
Qed.

Lemma update_uuid_mapping_fold listing (nodes : list (string * node_data)) :
  NoDup (Dict.keys nodes) →
  ∀ mapping node_uuid,
    Dict.get node_uuid
      (foldl (λ mapping p,
                match find_server p.2 listing with
                | Some server_name => Dict.set p.1 server_name mapping
                | None => mapping
                end) mapping nodes) =
    match Dict.get node_uuid nodes ≫= (λ node, find_server node listing) with
    | Some server_name => Some server_name
    | None => Dict.get node_uuid mapping
    end.
Proof.
  unfold Dict.keys.
  induction nodes as [|[k node] nodes IH]; intros Hnd mapping node_uuid;
    [done|].
  simpl in Hnd. apply NoDup_cons in Hnd as [Hk Hnd].
  simpl. rewrite IH by done. destruct (decide (k = node_uuid)) as [->|Hne].
  - rewrite (dict_get_not_in node_uuid nodes) by done. simpl.
    destruct (find_server node listing); [apply dict_get_set_eq|done].
  - destruct (Dict.get node_uuid nodes ≫= _); [done|].
    destruct (find_server node listing); [by apply dict_get_set_ne|done].
Qed.

Lemma update_uuid_mapping_get e node_uuid :
  NoDup (Dict.keys (GraphManager.nodes (graph e))) →
  Dict.get node_uuid (uuid_to_server_name (_update_uuid_mapping e)) =
    match Dict.get node_uuid (GraphManager.nodes (graph e))
            ≫= (λ node, find_server node (server_params e)) with
    | Some server_name => Some server_name
    | None => Dict.get node_uuid (uuid_to_server_name e)
    end.
Proof.
  intros Hnd. unfold _update_uuid_mapping. simpl.
  by apply update_uuid_mapping_fold.
Qed.

(** X19.  [_update_uuid_mapping] gives every node of the graph that has a
    match in the server's listing (the first listed node of its class, or of
    its name up to case) that server name, replacing a name stored before;
    every other node keeps what was stored for it.  Nothing but the mapping
    changes. *)
Theorem update_uuid_mapping_spec (e : Editor) (node_uuid : string) :
  NoDup (Dict.keys (GraphManager.nodes (graph e))) →
  Dict.get node_uuid (uuid_to_server_name (_update_uuid_mapping e)) =
    match Dict.get node_uuid (GraphManager.nodes (graph e))
            ≫= (λ node, find_server node (server_params e)) with
    | Some server_name => Some server_name
    | None => Dict.get node_uuid (uuid_to_server_name e)
    end ∧
  graph (_update_uuid_mapping e) = graph e ∧
  server_params (_update_uuid_mapping e) = server_params e ∧
  class_name_counters (_update_uuid_mapping e) = class_name_counters e.
Proof.
  intros Hnd. split; [by apply update_uuid_mapping_get|done].
Qed.

Lemma update_uuid_mapping_spec_witness :
  Dict.get "n1" (uuid_to_server_name (_update_uuid_mapping listed_editor)) =
    match Dict.get "n1" (GraphManager.nodes (graph listed_editor))
            ≫= (λ node, find_server node (server_params listed_editor)) with
    | Some server_name => Some server_name
    | None => Dict.get "n1" (uuid_to_server_name listed_editor)
    end ∧
  graph (_update_uuid_mapping listed_editor) = graph listed_editor ∧
  server_params (_update_uuid_mapping listed_editor) =
    server_params listed_editor ∧
  class_name_counters (_update_uuid_mapping listed_editor) =
    class_name_counters listed_editor.
Proof.
  apply update_uuid_mapping_spec. vm_compute.
  apply (bool_decide_unpack _). vm_compute. exact I.
Defined.

(** X20.  After a [params] event that lists a server node for a node of the
    graph, the output names of that node are formed with the listed server
    name, whatever was stored or guessed for the node before, and asking
    changes nothing. *)
Theorem params_then_server_output_name (data : list (string * server_node))
    (now : Q) (e : Editor) (s : NM) (node_uuid output_name : string)
    (node : node_data) (server_name : string) :
  within_capacity s →
  NoDup (Dict.keys (GraphManager.nodes (graph e))) →
  Dict.get node_uuid (GraphManager.nodes (graph e)) = Some node →
  find_server node data = Some server_name →
  server_name ≠ "" →
  output_name ≠ "" →
  ∃ e' s',
    params data now e s = Done e' s' ∧
    _get_server_output_name node_uuid output_name e' =
      (server_name +:+ "." +:+ output_name, e').
Proof.
  intros Hcap Hnd Hnode Hfind Hsn%truthy_true_iff Hout%truthy_true_iff.
  unfold params. destruct data as [|d data]; [done|].
  set (listing := d :: data) in *.
  destruct (notify_all_within "connected" now s Hcap) as (s' & Hs' & _).
  exists (_update_uuid_mapping (set_server_params listing e)), s'.
  split. { by rewrite (bind_done _ _ _ _ _ Hs'). }
  rewrite get_server_output_name_eq, Hout.
  assert (get_truthy node_uuid
            (uuid_to_server_name
               (_update_uuid_mapping (set_server_params listing e))) =
          Some server_name) as Hget.
  { unfold get_truthy.
    rewrite (update_uuid_mapping_get (set_server_params listing e) node_uuid)
      by done.
    simpl. rewrite Hnode. simpl. by rewrite Hfind, Hsn. }
  unfold resolved_name. by rewrite Hget.
Qed.

Lemma params_then_server_output_name_witness :
  ∃ e' s',
    params server_listing 0 listed_editor online_NM = Done e' s' ∧
    _get_server_output_name "n1" "out_psf" e' =
      ("psf_science" +:+ "." +:+ "out_psf", e').
Proof.
  eapply (params_then_server_output_name server_listing 0 listed_editor
            online_NM "n1" "out_psf" _ "psf_science").
  - split; vm_compute; lia.
  - vm_compute. apply (bool_decide_unpack _). vm_compute. exact I.
  - reflexivity.
  - vm_compute. reflexivity.
  - discriminate.
  - discriminate.
Defined.

(** ** Instance names *)

(** The number the next name of a class carries. *)
Lemma generate_unique_name_eq class_name e :
  let counter := default 0%N (Dict.get class_name (class_name_counters e)) in
  (_generate_unique_name class_name e).1 = "a" +:+ class_name +:+ pretty counter ∧
  Dict.get class_name
    (class_name_counters (_generate_unique_name class_name e).2) =
    Some (counter + 1)%N ∧
  ∀ other, other ≠ class_name →
    Dict.get other (class_name_counters (_generate_unique_name class_name e).2) =
    Dict.get other (class_name_counters e).
Proof.
  unfold _generate_unique_name. simpl.
  destruct (Dict.get class_name (class_name_counters e)) as [n|] eqn:E; simpl.
  - rewrite E. simpl. split; [done|]. split; [apply dict_get_set_eq|].
    intros other Hne. by apply dict_get_set_ne.
  - rewrite dict_get_set_eq. simpl. split; [done|].
    split; [apply dict_get_set_eq|].
    intros other Hne. by rewrite !dict_get_set_ne.
Qed.

Lemma generate_unique_names_counter class_name (classes : list string) :
  ∀ e,
    (default 0 (Dict.get class_name (class_name_counters e)) ≤
     default 0 (Dict.get class_name
                  (class_name_counters
                     (foldl (λ e c, (_generate_unique_name c e).2) e classes))))%N.
Proof.
  induction classes as [|c classes IH]; intros e; cbn [foldl]; [lia|].
  etrans; [|apply IH].
  destruct (generate_unique_name_eq c e) as (_ & Hc & Hother).
  destruct (decide (c = class_name)) as [->|Hne].
  - rewrite Hc. simpl. lia.
  - by rewrite Hother.
Qed.

(** X21.  The names [_generate_unique_name] gives for a class carry a
    counter that only grows: a name generated later for the same class,
    however many names were generated in between for this class or for
    others, has a larger counter and differs from the earlier one. *)
Theorem generate_unique_name_fresh (class_name : string)
    (classes : list string) (e : Editor) :
  let first := _generate_unique_name class_name e in
  let later := foldl (λ e c, (_generate_unique_name c e).2) first.2 classes in
  ∃ n m : N,
    first.1 = "a" +:+ class_name +:+ pretty n ∧
    (_generate_unique_name class_name later).1 =
      "a" +:+ class_name +:+ pretty m ∧
    (n < m)%N ∧
    (_generate_unique_name class_name later).1 ≠ first.1.
Proof.
  cbv zeta.
  destruct (generate_unique_name_eq class_name e) as (E1 & Hc & _).
  pose proof (generate_unique_names_counter class_name classes
                (_generate_unique_name class_name e).2) as Hle.
  rewrite Hc in Hle. cbn [default from_option id] in Hle.
  destruct (generate_unique_name_eq class_name
              (foldl (λ e c, (_generate_unique_name c e).2)
                 (_generate_unique_name class_name e).2 classes))
    as (E2 & _).
  eexists _, _. split; [exact E1|]. split; [exact E2|]. split; [lia|].
  rewrite E1, E2. intros Heq.
  apply (inj (String.app "a")), (inj (String.app class_name)) in Heq.
  apply (inj pretty) in Heq. lia.
Qed.


(** ** Opening a monitor *)



Lemma dict_keys_alter {V} (f : V → V) (k : string) (d : list (string * V)) :
  Dict.keys (Dict.alter f k d) = Dict.keys d.
Proof.
  unfold Dict.keys, Dict.alter. rewrite <- list_fmap_compose.
  apply list_fmap_ext. intros i [k' v] _. simpl. by destruct (decide _).
Qed.



Lemma mark_fold_keys flag (matching : list (string * monitor_info)) :
  ∀ d, Dict.keys (foldl (λ d p, Dict.alter (with_subscribed flag) p.1 d)
                    d matching) = Dict.keys d.
Proof.
  induction matching as [|p matching IH]; intros d; [done|].
  cbn [foldl]. by rewrite IH, dict_keys_alter.
Qed.


Lemma truthy_app_l a b : truthy a = true → truthy (a +:+ b) = true.
Proof. by destruct a. Qed.

(** The name [_get_server_output_name] returns is never empty, so the
    fallback of [_open_output_monitor] is never taken. *)
Lemma server_output_name_truthy node_uuid output_name e :
  truthy (_get_server_output_name node_uuid output_name e).1 = true.
Proof.
  rewrite get_server_output_name_eq. simpl.
  destruct (truthy output_name); [|done].
  apply truthy_app_l, resolved_name_truthy.
Qed.



Lemma connect_socketio_result connect_ok s :
  _connect_socketio connect_ok s =
  Done tt (if socketio_enabled s
           then if connect_ok
                then set_wire (wire s ++ [test_connection])
                       (set_socketio_connected true s)
                else set_socketio_connected false s
           else s).
Proof.
  unfold _connect_socketio. rewrite bind_gets.
  by destruct (socketio_enabled s), connect_ok.
Qed.

(** X23.  Opening a monitor while the transport is disconnected registers
    the monitor and tries to connect, but subscribes nothing: the set of
    subscribed outputs is as before, and all that may be sent is the
    connection test. *)
Theorem open_monitor_disconnected (node_uuid output_name : string) (now : Q)
    (connect_ok : bool) (e : Editor) (s : NM) (node : node_data) :
  socketio_connected s = false →
  Dict.get node_uuid (GraphManager.nodes (graph e)) = Some node →
  does_item_exist ("monitor_" +:+ monitor_id_of node_uuid output_name now) s
    = false →
  ∃ s' info,
    _open_output_monitor node_uuid output_name now connect_ok e s =
      Done (_get_server_output_name node_uuid output_name e).2 s' ∧
    subscribed_outputs s' = subscribed_outputs s ∧
    wire s' = wire s ++ (if socketio_enabled s && connect_ok
                         then [test_connection] else []) ∧
    socketio_connected s' = socketio_enabled s && connect_ok ∧
    monitor_running s' = true ∧
    Dict.get (monitor_id_of node_uuid output_name now) (active_monitors s') =
      Some info ∧
    server_output_name info =
      (_get_server_output_name node_uuid output_name e).1 ∧
    subscribed info = false.
Proof.
  intros Hc Hnode Hwin.
  pose proof (server_output_name_truthy node_uuid output_name e) as Ht.
  unfold _open_output_monitor. rewrite Hnode.
  destruct (_get_server_output_name node_uuid output_name e)
    as [resolved e'] eqn:E.
  simpl in Ht. rewrite Ht. simpl.
  set (monitor_id := monitor_id_of node_uuid output_name now) in *.
  set (info0 := new_monitor _ _ _ _ _).
  rewrite bind_gets, Hwin. rewrite !bind_modify.
  set (sa := set_active_monitors _ _).
  rewrite bind_gets.
  assert (∃ sb, when (negb (monitor_running sa)) _start_monitor_updater sa
                = Done tt sb ∧ sb = set_monitor_running true sa) as (sb & Eb & Hb).
  { unfold _start_monitor_updater.
    destruct (monitor_running sa) eqn:Hr; simpl.
    - exists sa. split; [done|]. destruct sa; simpl in *. by subst.
    - rewrite bind_gets, Hr. simpl. by eexists. }
  rewrite (bind_done _ _ _ _ _ Eb), bind_gets.
  assert (socketio_connected sb = false) as Hcb by (by subst sb).
  rewrite Hcb. simpl.
  assert (Dict.get monitor_id (active_monitors sb) = Some info0) as Hget.
  { subst sb sa. simpl. apply dict_get_set_eq. }
  rewrite (bind_done _ _ _ _ _ (connect_socketio_result connect_ok sb)).
  rewrite bind_modify.
  replace (socketio_enabled sb) with (socketio_enabled s) by (by subst sb).
  eexists _, info0. split; [done|].
  destruct (socketio_enabled s); simpl; [destruct connect_ok|]; simpl;
    subst sb sa; simpl; by rewrite dict_get_set_eq, ?Hc, ?app_nil_r.
Qed.


Lemma open_monitor_disconnected_witness :
  ∃ s' info,
    _open_output_monitor "n1" "out_psf" 7 true fresh_editor offline_NM =
      Done (_get_server_output_name "n1" "out_psf" fresh_editor).2 s' ∧
    subscribed_outputs s' = subscribed_outputs offline_NM ∧
    wire s' = wire offline_NM ++ (if socketio_enabled offline_NM && true
                                  then [test_connection] else []) ∧
    socketio_connected s' = socketio_enabled offline_NM && true ∧
    monitor_running s' = true ∧
    Dict.get (monitor_id_of "n1" "out_psf" 7) (active_monitors s') = Some info ∧
    server_output_name info =
      (_get_server_output_name "n1" "out_psf" fresh_editor).1 ∧
    subscribed info = false.
Proof.
  eapply (open_monitor_disconnected "n1" "out_psf" 7 true fresh_editor
            offline_NM).
  - reflexivity.
  - reflexivity.
  - vm_compute. reflexivity.
Defined.

(** ** Opening and closing *)

Lemma dict_del_absent {V} (k : string) (d : list (string * V)) :
  Dict.get k d = None → Dict.del k d = d.
Proof.
  unfold Dict.del. induction d as [|[k' v] d IH]; simpl; [done|].
  destruct (decide (k' = k)); [done|]. intros H.
  rewrite filter_cons_True by done. by rewrite IH.
Qed.







(** ** The periodic sweep *)

Lemma filter_ext_in {A} (P Q : A → Prop) `{∀ x, Decision (P x)}
    `{∀ x, Decision (Q x)} (l : list A) :
  (∀ x, x ∈ l → P x ↔ Q x) → filter P l = filter Q l.
Proof.
  induction l as [|x l IH]; intros Hext; [done|].
  rewrite !filter_cons.
  destruct (decide (P x)) as [HP|HP], (decide (Q x)) as [HQ|HQ].
  - f_equal. apply IH. intros y Hy. apply Hext. by right.
  - exfalso. apply HQ, Hext; [left|done].
  - exfalso. apply HP, Hext; [left|done].
  - apply IH. intros y Hy. apply Hext. by right.
Qed.

(** The loop of [_periodic_cleanup] over the dead monitors. *)
Lemma sweep_loop (ids : list string) :
  ∀ s,
    for_each ids (λ monitor_id,
      run modify (λ s, set_simple_displays
                         (simple_displays s ∖ {[monitor_id]}) s);
      del_monitor monitor_id) s =
    Done tt (set_simple_displays (simple_displays s ∖ list_to_set ids)
               (set_active_monitors
                  (filter (λ p, p.1 ∉ ids) (active_monitors s)) s)).
Proof.
  induction ids as [|k ids IH]; intros s.
  - simpl. unfold ret. f_equal.
    unfold set_simple_displays, set_active_monitors. destruct s; simpl.
    f_equal.
    + symmetry. apply filter_all, Forall_forall. intros p _. set_solver.
    + set_solver.
  - cbn [for_each]. unfold bind at 1. rewrite bind_modify.
    unfold del_monitor, modify at 1. rewrite IH. f_equal.
    unfold set_simple_displays, set_active_monitors. destruct s; simpl.
    f_equal.
    + unfold Dict.del. rewrite list_filter_filter.
      apply filter_ext_in. intros p _. set_solver.
    + set_solver.
Qed.

Lemma dict_key_unique {V} (d : list (string * V)) k v v' :
  NoDup (Dict.keys d) → (k, v) ∈ d → (k, v') ∈ d → v = v'.
Proof.
  intros Hnd H1 H2.
  apply (dict_elem_get _ _ _ Hnd) in H1.
  apply (dict_elem_get _ _ _ Hnd) in H2. congruence.
Qed.

(** X25.  [_periodic_cleanup] drops from the table exactly the monitors
    whose window is gone and keeps the others in order; afterwards every
    display left belongs to a monitor of the table.  Unlike [_close_monitor]
    it neither unsubscribes the outputs of the monitors it drops nor purges
    their samples, and it leaves the updater running. *)
Theorem periodic_cleanup_spec (s : NM) :
  NoDup (Dict.keys (active_monitors s)) →
  ∃ s',
    _periodic_cleanup s = Done tt s' ∧
    active_monitors s' = filter (λ p, ¬ dead s p) (active_monitors s) ∧
    simple_displays s' =
      filter (λ monitor_id, monitor_id ∈ Dict.keys (active_monitors s'))
             (simple_displays s) ∧
    subscribed_outputs s' = subscribed_outputs s ∧
    monitor_data_queue s' = monitor_data_queue s ∧
    wire s' = wire s ∧
    monitor_running s' = monitor_running s.
Proof.
  intros Hnd. unfold _periodic_cleanup. rewrite bind_modify, bind_gets.
  rewrite sweep_loop. eexists. split; [done|]. simpl.
  assert (filter (λ p : string * monitor_info,
                    p.1 ∉ Dict.keys (filter (dead s) (active_monitors s)))
                 (active_monitors s) =
          filter (λ p, ¬ dead s p) (active_monitors s)) as Hact.
  { apply filter_ext_in. intros [k v] Hin. simpl. split.
    - intros Hk Hdead. apply Hk. unfold Dict.keys.
      apply list_elem_of_fmap. exists (k, v). split; [done|].
      by apply list_elem_of_filter.
    - intros Halive Hk. unfold Dict.keys in Hk.
      apply list_elem_of_fmap in Hk as ([k' v'] & Heq & Hin').
      simpl in Heq. subst k'.
      apply list_elem_of_filter in Hin' as [Hdead Hin'].
      by rewrite (dict_key_unique _ _ _ _ Hnd Hin Hin') in Halive. }
  set (s0 := set_simple_displays _ s).
  assert (filter (dead s0) (active_monitors s) =
          filter (dead s) (active_monitors s)) as ->.
  { by apply filter_ext_in. }
  rewrite Hact. repeat split; try done.
  apply set_eq. intros x.
  rewrite elem_of_difference, !elem_of_filter, elem_of_list_to_set.
  unfold Dict.keys. rewrite !list_elem_of_fmap. split.
  - intros [[(p & -> & Hp) Hx] Hnot]. split; [|done].
    exists p. split; [done|]. apply list_elem_of_filter. split; [|done].
    intros Hdead. apply Hnot. exists p. split; [done|].
    by apply list_elem_of_filter.
  - intros [(p & -> & Hp) Hx].
    apply list_elem_of_filter in Hp as [Halive Hp].
    split; [split; [by exists p|done]|].
    intros (p' & Heq & Hp'). apply list_elem_of_filter in Hp' as [Hdead Hp'].
    destruct p as [k v], p' as [k' v']. simpl in Heq. subst k'.
    by rewrite (dict_key_unique _ _ _ _ Hnd Hp Hp') in Halive.
Qed.

Lemma periodic_cleanup_spec_witness :
  ∃ s',
    _periodic_cleanup windowless_NM = Done tt s' ∧
    active_monitors s' =
      filter (λ p, ¬ dead windowless_NM p) (active_monitors windowless_NM) ∧
    simple_displays s' =
      filter (λ monitor_id, monitor_id ∈ Dict.keys (active_monitors s'))
             (simple_displays windowless_NM) ∧
    subscribed_outputs s' = subscribed_outputs windowless_NM ∧
    monitor_data_queue s' = monitor_data_queue windowless_NM ∧
    wire s' = wire windowless_NM ∧
    monitor_running s' = monitor_running windowless_NM.
Proof.
  apply periodic_cleanup_spec.
  apply (bool_decide_unpack _). vm_compute. exact I.
Defined.

(** ** Shutting down *)







(** ** Closing by port *)







(** ** The graph *)

(** X27.  [remove_node] leaves no trace of the node: it is not in the node
    table and no connection starts or ends at it.  The connections between
    other nodes are kept, in order, and so are the other nodes. *)
Theorem remove_node_spec (node_id : string) (g : GraphManager.t) :
  let g' := GraphManager.remove_node node_id g in
  Dict.get node_id (GraphManager.nodes g') = None ∧
  (∀ other, other ≠ node_id →
     Dict.get other (GraphManager.nodes g') =
     Dict.get other (GraphManager.nodes g)) ∧
  (∀ c : connection, c ∈ GraphManager.connections g' ↔
     c ∈ GraphManager.connections g ∧ c.1.1.1 ≠ node_id ∧ c.1.2 ≠ node_id) ∧
  GraphManager.connections g' `sublist_of` GraphManager.connections g ∧
  GraphManager.remove_node node_id g' = g'.
Proof.
  cbv zeta. unfold GraphManager.remove_node. simpl.
  assert (match Dict.get node_id (GraphManager.nodes g) with
          | Some _ => Dict.del node_id (GraphManager.nodes g)
          | None => GraphManager.nodes g
          end = Dict.del node_id (GraphManager.nodes g)) as ->.
  { destruct (Dict.get _ _) eqn:E; [done|]. by rewrite dict_del_absent. }
  rewrite dict_get_del. split; [done|]. split.
  { intros other Hne. by apply dict_get_del_ne. }
  split.
  { intros c. rewrite list_elem_of_filter. tauto. }
  split; [apply sublist_filter|].
  f_equal. rewrite list_filter_filter. apply filter_ext_in. tauto.
Qed.

(** [list.remove] finds an element that is in the list. *)
Lemma list_remove_Some {A} `{EqDecision A} (x : A) (l : list A) :
  x ∈ l → ∃ l', GraphManager.list_remove x l = Some l' ∧ l ≡ₚ x :: l'.
Proof.
  induction l as [|y l IH]; [by intros ?%elem_of_nil|].
  intros Hin. simpl. destruct (decide (y = x)) as [->|Hne].
  - by exists l.
  - apply elem_of_cons in Hin as [?|Hin]; [congruence|].
    destruct (IH Hin) as (l' & -> & Hp). exists (y :: l'). split; [done|].
    rewrite Hp. apply Permutation_swap.
Qed.

Lemma list_remove_None {A} `{EqDecision A} (x : A) (l : list A) :
  GraphManager.list_remove x l = None ↔ x ∉ l.
Proof.
  induction l as [|y l IH]; simpl.
  - split; [intros _; apply not_elem_of_nil|done].
  - rewrite not_elem_of_cons. destruct (decide (y = x)) as [->|Hne].
    + split; [done|]. by intros [? _].
    + rewrite fmap_None, IH. split; [by split|by intros [_ ?]].
Qed.

Lemma list_remove_snoc {A} `{EqDecision A} (x : A) (l : list A) :
  x ∉ l → GraphManager.list_remove x (l ++ [x]) = Some l.
Proof.
  induction l as [|y l IH]; simpl.
  - intros _. by rewrite decide_True.
  - rewrite not_elem_of_cons. intros [Hne Hnin].
    rewrite decide_False by done. by rewrite IH.
Qed.

(** X28.  [remove_connection] fails (the [ValueError] of [list.remove])
    exactly when the connection is not in the list.  After [add_connection]
    it succeeds; it gives back the list as it was when the connection was
    new, and otherwise the same connections with the older copy taken out
    and the new one at the end. *)
Theorem connection_round_trip (output_node output_attr input_node input_attr : string)
    (g : GraphManager.t) :
  let c : connection := (output_node, output_attr, input_node, input_attr) in
  let added :=
    (GraphManager.add_connection output_node output_attr input_node input_attr g).2 in
  (GraphManager.remove_connection output_node output_attr input_node input_attr g
     = None ↔ c ∉ GraphManager.connections g) ∧
  ∃ g',
    GraphManager.remove_connection output_node output_attr input_node input_attr
      added = Some g' ∧
    GraphManager.connections g' ≡ₚ GraphManager.connections g ∧
    GraphManager.nodes g' = GraphManager.nodes g ∧
    (c ∉ GraphManager.connections g → g' = g).
Proof.
  cbv zeta. unfold GraphManager.remove_connection, GraphManager.add_connection.
  simpl. set (c := (output_node, output_attr, input_node, input_attr)).
  split. { rewrite fmap_None. apply list_remove_None. }
  destruct (list_remove_Some c (GraphManager.connections g ++ [c]))
    as (l' & E & Hp); [set_solver|].
  rewrite E. simpl. eexists. split; [done|]. simpl. split; [|split; [done|]].
  - apply (Permutation_cons_inv (a := c)).
    etrans; [symmetry; exact Hp|]. symmetry. apply Permutation_cons_append.
  - intros Hnin. rewrite list_remove_snoc in E by done.
    injection E as <-. by destruct g.
Qed.

Lemma default_values_fold (parameters : list (string * param_meta)) :
  NoDup (Dict.keys parameters) →
  ∀ (values : list (string * pyobj)) param,
    Dict.get param
      (foldl (λ values p,
                match pm_default p.2 with
                | Some v => Dict.set p.1 v values
                | None => values
                end) values parameters) =
    match Dict.get param parameters ≫= pm_default with
    | Some v => Some v
    | None => Dict.get param values
    end.
Proof.
  unfold Dict.keys.
  induction parameters as [|[k meta] parameters IH]; intros Hnd values param;
    [done|].
  simpl in Hnd. apply NoDup_cons in Hnd as [Hk Hnd].
  simpl. rewrite IH by done. destruct (decide (k = param)) as [->|Hne].
  - rewrite (dict_get_not_in param parameters) by done. simpl.
    destruct (pm_default meta); [apply dict_get_set_eq|done].
  - destruct (Dict.get param parameters ≫= pm_default); [done|].
    destruct (pm_default meta); [by apply dict_get_set_ne|done].
Qed.

(** X29.  [add_node] stores a node of the given type whose values are the
    defaults of its parameters: a parameter with a default has that value,
    one without has none.  For a type without a template the node has no
    inputs, outputs or parameters and is named after the type, and the
    generic template is registered for the type.  The other nodes and the
    connections stay. *)
Theorem add_node_spec (node_uuid node_type : string) (g : GraphManager.t) :
  (∀ t, Dict.get node_type (GraphManager.templates g) = Some t →
        NoDup (Dict.keys (default [] (t_parameters t)))) →
  let g' := GraphManager.add_node node_uuid node_type g in
  ∃ node,
    Dict.get node_uuid (GraphManager.nodes g') = Some node ∧
    nd_type node = Some node_type ∧
    (∀ param, Dict.get param (nd_values node) =
              Dict.get param (nd_parameters node) ≫= pm_default) ∧
    (Dict.get node_type (GraphManager.templates g) = None →
       node = NodeData (Some node_type) (Some node_type) [] [] [] [] (Some []) ∧
       Dict.get node_type (GraphManager.templates g') =
         Some (GraphManager.fallback_template node_type)) ∧
    (∀ other, other ≠ node_uuid →
       Dict.get other (GraphManager.nodes g') =
       Dict.get other (GraphManager.nodes g)) ∧
    GraphManager.connections g' = GraphManager.connections g.
Proof.
  intros Hnd. cbv zeta. unfold GraphManager.add_node.
  destruct (Dict.get node_type (GraphManager.templates g)) as [t|] eqn:Ht.
  - rewrite Ht. simpl. eexists. rewrite dict_get_set_eq.
    split; [done|]. simpl. split; [done|]. split; [|split; [done|split]].
    + intros param. unfold GraphManager.default_values.
      rewrite default_values_fold by (by apply Hnd). simpl.
      by destruct (_ ≫= _).
    + intros other Hne. by apply dict_get_set_ne.
    + done.
  - rewrite dict_get_set_eq. simpl. eexists. rewrite dict_get_set_eq.
    split; [done|]. simpl. split; [done|]. split; [done|].
    split; [by rewrite dict_get_set_eq|]. split; [|done].
    intros other Hne. by apply dict_get_set_ne.
Qed.

Lemma add_node_spec_witness :
  let g' := GraphManager.add_node "n3" "DM" (GraphManager.init dm_templates) in
  ∃ node,
    Dict.get "n3" (GraphManager.nodes g') = Some node ∧
    nd_type node = Some "DM" ∧
    (∀ param, Dict.get param (nd_values node) =
              Dict.get param (nd_parameters node) ≫= pm_default) ∧
    (Dict.get "DM" (GraphManager.templates (GraphManager.init dm_templates))
       = None →
       node = NodeData (Some "DM") (Some "DM") [] [] [] [] (Some []) ∧
       Dict.get "DM" (GraphManager.templates g') =
         Some (GraphManager.fallback_template "DM")) ∧
    (∀ other, other ≠ "n3" →
       Dict.get other (GraphManager.nodes g') =
       Dict.get other (GraphManager.nodes (GraphManager.init dm_templates))) ∧
    GraphManager.connections g' =
      GraphManager.connections (GraphManager.init dm_templates).
Proof.
  apply (add_node_spec "n3" "DM" (GraphManager.init dm_templates)).
  intros t [= <-]. apply (bool_decide_unpack _). vm_compute. exact I.
Defined.

(** ** File names of the connections *)

(** X30.  [update_connection_filename] and [get_connection_filename] fail
    (the [KeyError]) exactly for a node that is not in the graph.  After an
    update the file name read back for the connection is the one written;
    the names read for connections with another key [<source>.<port>], on
    this node or on others, are as before. *)
Theorem connection_filename_round_trip
    (node_uuid src_uuid src_attr new_filename : string) (e : Editor) :
  (update_connection_filename node_uuid src_uuid src_attr new_filename e = None
     ↔ Dict.get node_uuid (GraphManager.nodes (graph e)) = None) ∧
  (get_connection_filename node_uuid src_uuid src_attr e = None
     ↔ Dict.get node_uuid (GraphManager.nodes (graph e)) = None) ∧
  ∀ e',
    update_connection_filename node_uuid src_uuid src_attr new_filename e
      = Some e' →
    get_connection_filename node_uuid src_uuid src_attr e' = Some new_filename ∧
    ∀ other_node other_src other_attr,
      other_node ≠ node_uuid ∨
      other_src +:+ "." +:+ other_attr ≠ src_uuid +:+ "." +:+ src_attr →
      get_connection_filename other_node other_src other_attr e' =
      get_connection_filename other_node other_src other_attr e.
Proof.
  unfold update_connection_filename, get_connection_filename.
  destruct (Dict.get node_uuid (GraphManager.nodes (graph e)))
    as [node|] eqn:Hnode; simpl.
  2:{ split; [done|]. split; [done|]. by intros e' [=]. }
  split; [done|]. split; [by destruct (nd_filename_map node)|].
  intros e' [= <-]. simpl. rewrite dict_get_alter_eq, Hnode. simpl.
  rewrite dict_get_set_eq. split; [done|].
  intros other_node other_src other_attr Hother.
  destruct (decide (other_node = node_uuid)) as [->|Hne].
  - destruct Hother as [?|Hkey]; [done|].
    rewrite dict_get_alter_eq, Hnode. simpl.
    rewrite dict_get_set_ne by done.
    by destruct (nd_filename_map node).
  - by rewrite dict_get_alter_ne.
Qed.
